(** * The user repository of money_managment

    A shallow embedding of [internal/domain/user/repo.go] together with the
    parts of [errors], [fmt], [pgx], [pgconn], [logger] and [storage] that the
    repository relies on, followed by the properties of its six operations. *)

From Stdlib Require Import ZArith NArith List String Ascii Bool Lia.
From Stdlib Require Import DecimalString DecimalZ DecimalPos.
Import ListNotations.
Open Scope string_scope.
Open Scope Z_scope.

(** ** Go error values *)

Module errors.

(** Where an error object lives: a package-level variable, named by its
    qualified identifier, or an object allocated while the program runs. *)
Inductive addr : Type :=
| Global (name : string)
| Heap (n : N).

Definition addr_eqb (a b : addr) : bool :=
  match a, b with
  | Global x, Global y => String.eqb x y
  | Heap x, Heap y => N.eqb x y
  | _, _ => false
  end.

(** The two dynamic types behind the [error] interface that occur here:
    [*errors.errorString] (made by [errors.New] and by [fmt.Errorf] without
    [%w]) and [*fmt.wrapError] (made by [fmt.Errorf] with one [%w]). *)
Inductive error : Type :=
| errorString (p : addr) (s : string)
| wrapError (p : addr) (msg : string) (err : error).

(** The [Error()] method. *)
Definition Error (e : error) : string :=
  match e with
  | errorString _ s => s
  | wrapError _ msg _ => msg
  end.

(** The [Unwrap()] method; only [*fmt.wrapError] has one. *)
Definition Unwrap (e : error) : option error :=
  match e with
  | errorString _ _ => None
  | wrapError _ _ err => Some err
  end.

(** [err == target] on interface values holding pointers: same dynamic
    type, same object. *)
Definition same (a b : error) : bool :=
  match a, b with
  | errorString p _, errorString q _ => addr_eqb p q
  | wrapError p _ _, wrapError q _ _ => addr_eqb p q
  | _, _ => false
  end.

(** [errors.Is] for a non-nil [err] and a non-nil [target]: walk the
    [Unwrap] chain comparing each link with [==]. *)
Fixpoint Is (err target : error) : bool :=
  same err target ||
  match err with
  | errorString _ _ => false
  | wrapError _ _ inner => Is inner target
  end.

(** [errors.Is(err, target)] where [err] may be nil and [target] is not. *)
Definition IsNilable (err : option error) (target : error) : bool :=
  match err with
  | None => false
  | Some e => Is e target
  end.

(** [var X = errors.New(text)] at package level. *)
Definition New (name text : string) : error := errorString (Global name) text.

(** Every run-time object of the chain was allocated below [top]. *)
Fixpoint below (top : N) (e : error) : bool :=
  match e with
  | errorString (Heap n) _ => N.ltb n top
  | errorString (Global _) _ => true
  | wrapError p _ inner =>
      match p with Heap n => N.ltb n top | Global _ => true end && below top inner
  end.

End errors.

Import errors.

(** ** fmt: the [%d] verb on an [int64] *)

Module fmt.
Definition d (z : Z) : string := NilZero.string_of_int (Z.to_int z).
End fmt.

(** ** The logger interface, as the trace of the calls made on it *)

Module logger.

Inductive Level : Type := DebugLevel | InfoLevel | WarnLevel | ErrorLevel.

(** The values the repository passes as [Field.Value] ([interface{}]). *)
Inductive any : Type :=
| AnyError (e : error)
| AnyInt64 (z : Z).

Record Field : Type := mkField { Key : string; Value : any }.

End logger.

(** ** pgx and pgconn: what the pool hands back *)

Module pgx.

Definition ErrNoRows : error := errors.New "pgx.ErrNoRows" "no rows in result set".

(** A column value or a statement argument. *)
Inductive value : Type :=
| Int64 (z : Z)
| Text (s : string)
| Timestamptz (t : Z)
| Null.

Definition RawRow : Type := list value.

(** [pgx.Rows]: the rows [Next] will still deliver, and the error [Err]
    reports once [Next] has returned false. *)
Record Rows : Type := mkRows { data : list RawRow; err : option error }.

(** [pgx.Row], whose [Scan] reports the statement's failure, or
    [ErrNoRows] when there is no row, or decodes the row. *)
Inductive Row : Type :=
| RowError (e : error)
| RowNone
| RowData (raw : RawRow).

End pgx.

Module pgconn.
(** [pgconn.CommandTag], reduced to what [RowsAffected()] returns. *)
Record CommandTag : Type := mkCommandTag { RowsAffected : Z }.
End pgconn.

(** ** storage: the sentinel errors and the pool interface *)

Module storage.

Definition ErrUserAlreadyExists : error :=
  errors.New "storage.ErrUserAlreadyExists" "user already exists".
Definition ErrDB : error := errors.New "storage.ErrDB" "database error".
Definition ErrNoUsers : error := errors.New "storage.ErrNoUsers" "no users found".

(** [DBPool], over the state [P] of whatever implements it.  [Close] is
    not called by the repository.  The context argument is left out: what
    cancellation does shows in the answers of the pool. *)
Record DBPool (P : Type) : Type := mkDBPool {
  Exec : string -> list pgx.value -> P -> (pgconn.CommandTag * option error) * P;
  Query : string -> list pgx.value -> P -> (pgx.Rows * option error) * P;
  QueryRow : string -> list pgx.value -> P -> pgx.Row * P
}.
Arguments Exec {P} _ _ _ _.
Arguments Query {P} _ _ _ _.
Arguments QueryRow {P} _ _ _ _.

End storage.

Import logger pgx pgconn storage.

(** ** The user entity *)

Definition Time : Type := Z.

Record User : Type := mkUser {
  ID : Z;
  Username : string;
  Email : string;
  PassHash : string;
  CreateAt : Time;
  UpdateAt : Time
}.

(** A Go slice that may be nil. *)
Definition slice (A : Type) : Type := option (list A).

Definition append {A : Type} (s : slice A) (x : A) : slice A :=
  match s with
  | None => Some [x]
  | Some l => Some (l ++ [x])%list
  end.

(** ** The statements of the repository *)

Definition createQuery : string := "insert into users 
		(username, email, passhash)
		values
		($1, $2, $3)
		on conflict (email) do nothing
		returning id".

Definition getByIDQuery : string := "select id, username, email, passhash, create_at, update_at
				   from users
				   where id = $1".

Definition updateQuery : string := "update users 
	set username = $1, email = $2, passhash = $3, update_at = now()
	where id = $4
	returning id, username, email, passhash, create_at, update_at".

Definition deleteQuery : string := "delete
	from users
	where id = $1".

Definition listQuery : string := "select id, username, email, passhash, create_at, update_at
	from users
	order by id
	limit $1 offset $2".

Definition countQuery : string := "select count(id) from users".

(** ** Decoding a row into the destinations the repository passes to Scan *)

(** [Scan(&id)] and [Scan(&count)]. *)
Definition scanInt64 (raw : RawRow) : option Z :=
  match raw with
  | [Int64 z] => Some z
  | _ => None
  end.

(** [Scan(&u.ID, &u.Username, &u.Email, &u.PassHash, &u.CreateAt, &u.UpdateAt)]. *)
Definition scanUser (raw : RawRow) : option User :=
  match raw with
  | [Int64 id; Text username; Text email; Text passhash; Timestamptz c; Timestamptz u] =>
      Some (mkUser id username email passhash c u)
  | _ => None
  end.

(** ** Pools to run the repository against *)

(** A scripted double: its state is the script, and whatever the
    statement, [Exec], [Query] and [QueryRow] give the scripted answer. *)
Record Script : Type := mkScript {
  execAnswer : CommandTag * option error;
  queryAnswer : Rows * option error;
  rowAnswer : Row
}.

Definition scripted : DBPool Script :=
  mkDBPool Script
    (fun _ _ s => (execAnswer s, s))
    (fun _ _ s => (queryAnswer s, s))
    (fun _ _ s => (rowAnswer s, s)).

Definition onExec (tag : CommandTag * option error) : Script :=
  mkScript tag (mkRows [] None, None) RowNone.

Definition onQuery (rows : Rows * option error) : Script :=
  mkScript (mkCommandTag 0, None) rows RowNone.

Definition onQueryRow (row : Row) : Script :=
  mkScript (mkCommandTag 0, None) (mkRows [] None, None) row.

(** An in-memory users table that understands the delete statement and
    refuses every other one. *)
Definition errUnsupported : error :=
  errors.New "memstore.errUnsupported" "statement not supported".

Definition memstoreExec (sql : string) (args : list value) (t : list User)
  : (CommandTag * option error) * list User :=
  if String.eqb sql deleteQuery then
    match args with
    | [Int64 id] =>
        let kept := filter (fun u => negb (ID u =? id)) t in
        ((mkCommandTag (Z.of_nat (List.length t) - Z.of_nat (List.length kept)), None), kept)
    | _ => ((mkCommandTag 0, Some errUnsupported), t)
    end
  else ((mkCommandTag 0, Some errUnsupported), t).

Definition memstore : DBPool (list User) :=
  mkDBPool (list User)
    memstoreExec
    (fun _ _ t => ((mkRows [] None, Some errUnsupported), t))
    (fun _ _ t => (RowError errUnsupported, t)).

(** The errors a driver reports in the examples below. *)
Definition errConnLost : error := errorString (Heap 0) "connection lost".
Definition errBadScan : error := errorString (Heap 1) "cannot scan into dest".

Definition scanFails : RawRow -> error := fun _ => errBadScan.

Definition dima : User := mkUser 42 "dima" "dima@example.com" "hash" 0 0.

Definition dimaRow : RawRow :=
  [Int64 42; Text "dima"; Text "dima@example.com"; Text "hash"; Timestamptz 0; Timestamptz 0].

(** The row of the scan-error test: text where the timestamps should be. *)
Definition badRow : RawRow :=
  [Int64 42; Text "dima"; Text "dima@example.com"; Text "hash";
   Text "bad_time_value"; Text "BTV2"].

Definition badRowScript : Script :=
  mkScript (mkCommandTag 0, None) (mkRows [badRow] None, None) (RowData badRow).

(** ** config: the settings file *)

Module config.

Record AppSettings : Type := mkAppSettings { Name : string; Env : string }.

Record LoggerConfig : Type := mkLoggerConfig {
  Level : string;
  Encoding : string;
  OutputPath : string
}.

Record ServerConfig : Type := mkServerConfig {
  Host : string;
  Port : Z;
  ReadTimeout : string;
  WriteTimeout : string;
  IdleTimeout : string
}.

Record DBConfig : Type := mkDBConfig {
  DSN : string;
  MaxOpenConnections : Z;
  MaxIdleConnections : Z
}.

(** The three timeouts of Redis carry the names [ReadTimeout] and
    [WriteTimeout] of the server settings in the source; they are prefixed
    here. *)
Record RedisConfig : Type := mkRedisConfig {
  Address : string;
  Password : string;
  DB : Z;
  RedisDialTimeout : string;
  RedisReadTimeout : string;
  RedisWriteTimeout : string;
  PoolSize : Z
}.

Record Timeouts : Type := mkTimeouts {
  ShutdwonGracePeriod : string;
  RequestContentTimeout : string;
  ExternalAPITimeout : string
}.

Record Config : Type := mkConfig {
  App : AppSettings;
  Logger : LoggerConfig;
  Server : ServerConfig;
  DataBase : DBConfig;
  Redis : RedisConfig;
  ConfigTimeouts : Timeouts
}.

(** [var cfg Config]. *)
Definition zero : Config :=
  mkConfig (mkAppSettings "" "") (mkLoggerConfig "" "" "")
    (mkServerConfig "" 0 "" "" "") (mkDBConfig "" 0 0)
    (mkRedisConfig "" "" 0 "" "" "" 0) (mkTimeouts "" "" "").

(** [MustLoadConfig], over [cleanenv.ReadConfig(path, &cfg)] (what the
    reader leaves in [cfg] and the error it returns) and the next free heap
    cell. *)
Definition MustLoadConfig (ReadConfig : string -> Config -> Config * option error)
  (path : string) (brk : N) : (option Config * option error) * N :=
  if String.eqb path "" then
    ((None, Some (errorString (Heap brk) "config path is empty")), N.succ brk)
  else
    let (cfg, err) := ReadConfig path zero in
    match err with
    | Some e =>
        ((None,
          Some (wrapError (Heap brk)
                  ("cannot read config from " ++ path ++ ": " ++ Error e) e)),
         N.succ brk)
    | None => ((Some cfg, None), brk)
    end.

End config.

(** ** zapcore and zap, as far as the logger constructor configures them *)

Module zapcore.

(** [zapcore.Level] is an [int8]. *)
Definition Level : Type := Z.
Definition DebugLevel : Level := -1.
Definition InfoLevel : Level := 0.
Definition WarnLevel : Level := 1.
Definition ErrorLevel : Level := 2.

(** [func (l Level) Enabled(lvl Level) bool { return lvl >= l }]. *)
Definition Enabled (l lvl : Level) : bool := l <=? lvl.

Inductive Encoder : Type := ConsoleEncoder | JSONEncoder.

Inductive WriteSyncer : Type :=
| Stdout
| Stderr
| File (path : string).

Inductive TimeEncoder : Type := EpochTimeEncoder | ISO8601TimeEncoder.

End zapcore.

(** What [newZapLogger] fixes of the logger it returns: the encoder with
    its time key and time format, the outputs and the level of the core,
    whether the caller is added, and the level from which stack traces
    are. *)
Record zapLogger : Type := mkZapLogger {
  encoder : zapcore.Encoder;
  timeKey : string;
  encodeTime : zapcore.TimeEncoder;
  out : list zapcore.WriteSyncer;
  level : zapcore.Level;
  addCaller : bool;
  stacktrace : zapcore.Level
}.

(** [newZapLogger], over [zap.Open]: for a path, the sink it returns and
    its error (the close function it also returns is dropped by the
    source). *)
Definition newZapLogger (zapOpen : string -> zapcore.WriteSyncer * option error)
  (cfg : config.LoggerConfig) : option zapLogger * option error :=
  let zapLevel :=
    if String.eqb (config.Level cfg) "debug" then zapcore.DebugLevel
    else if String.eqb (config.Level cfg) "info" then zapcore.InfoLevel
    else if String.eqb (config.Level cfg) "warn" then zapcore.WarnLevel
    else if String.eqb (config.Level cfg) "error" then zapcore.ErrorLevel
    else zapcore.InfoLevel in
  let encoder :=
    if String.eqb (config.Encoding cfg) "console" then zapcore.ConsoleEncoder
    else zapcore.JSONEncoder in
  let out := [zapcore.Stdout] in
  if negb (String.eqb (config.OutputPath cfg) "") then
    let (fileWS, err) := zapOpen (config.OutputPath cfg) in
    match err with
    | Some err => (None, Some err)
    | None =>
        let out := [fileWS] in
        (Some (mkZapLogger encoder "ts" zapcore.ISO8601TimeEncoder out zapLevel true
                 zapcore.ErrorLevel),
         None)
    end
  else
    (Some (mkZapLogger encoder "ts" zapcore.ISO8601TimeEncoder out zapLevel true
             zapcore.ErrorLevel),
     None).

(** An element of the [[]interface{}] that [toZapFields] builds: a key or
    a field value. *)
Inductive boxed : Type :=
| BoxString (s : string)
| BoxAny (v : any).

(** [toZapFields]: the loop appends the key and the value of each field. *)
Definition toZapFields (fields : list Field) : list boxed :=
  fold_left (fun args f => (args ++ [BoxString (Key f); BoxAny (Value f)])%list)
    fields [].

(** ** The repository *)

Section Repository.

(** The pool the repository was built with ([r.db.Pool]), and the error
    the driver's Scan reports for a row that does not fit the destinations. *)
Context {P : Type}.
Variable db : DBPool P.
Variable scanError : RawRow -> error.

(** What a call can observe and change: the state behind the pool and
    the next free heap cell. *)
Record World : Type := mkWorld { pool : P; brk : N }.

(** The calls a repository operation makes on its two collaborators, in
    the order it makes them. *)
Inductive Action : Type :=
| PoolExec (sql : string) (args : list value)
| PoolQuery (sql : string) (args : list value)
| PoolQueryRow (sql : string) (args : list value)
| Log (lvl : Level) (msg : string) (fields : list Field).

Record Outcome (A : Type) : Type := mkOutcome {
  result : A;
  trace : list Action;
  world : World
}.
Arguments mkOutcome {A} _ _ _.
Arguments result {A} _.
Arguments trace {A} _.
Arguments world {A} _.

Definition M (A : Type) : Type := World -> Outcome A.

Definition ret {A : Type} (a : A) : M A :=
  fun w => mkOutcome a [] w.

Definition bind {A B : Type} (m : M A) (f : A -> M B) : M B :=
  fun w =>
    let o := m w in
    let o' := f (result o) (world o) in
    mkOutcome (result o') (trace o ++ trace o')%list (world o').

Notation "x <- c1 ;; c2" := (bind c1 (fun x => c2))
  (at level 61, c1 at next level, right associativity).
Notation "c1 ;; c2" := (bind c1 (fun _ => c2))
  (at level 61, right associativity).

(** [r.db.Pool.Exec], [r.db.Pool.Query], [r.db.Pool.QueryRow]. *)
Definition poolExec (sql : string) (args : list value)
  : M (CommandTag * option error) :=
  fun w =>
    let r := Exec db sql args (pool w) in
    mkOutcome (fst r) [PoolExec sql args] (mkWorld (snd r) (brk w)).

Definition poolQuery (sql : string) (args : list value)
  : M (Rows * option error) :=
  fun w =>
    let r := Query db sql args (pool w) in
    mkOutcome (fst r) [PoolQuery sql args] (mkWorld (snd r) (brk w)).

Definition poolQueryRow (sql : string) (args : list value) : M Row :=
  fun w =>
    let r := QueryRow db sql args (pool w) in
    mkOutcome (fst r) [PoolQueryRow sql args] (mkWorld (snd r) (brk w)).

(** [r.log.Error] and [r.log.Info]. *)
Definition logError (msg : string) (fields : list Field) : M unit :=
  fun w => mkOutcome tt [Log ErrorLevel msg fields] w.

Definition logInfo (msg : string) (fields : list Field) : M unit :=
  fun w => mkOutcome tt [Log InfoLevel msg fields] w.

(** [fmt.Errorf] with no [%w]: a new [*errors.errorString]. *)
Definition Errorf (msg : string) : M error :=
  fun w => mkOutcome (errorString (Heap (brk w)) msg) []
             (mkWorld (pool w) (N.succ (brk w))).

(** [fmt.Errorf] with one [%w]: a new [*fmt.wrapError] around the operand
    of the [%w]; [msg] is the formatted text. *)
Definition Errorf_w (msg : string) (wrapped : error) : M error :=
  fun w => mkOutcome (wrapError (Heap (brk w)) msg wrapped) []
             (mkWorld (pool w) (N.succ (brk w))).

(** [rows.Scan(dest...)] on the current row. *)
Definition rowsScan {T : Type} (decode : RawRow -> option T) (raw : RawRow)
  : error + T :=
  match decode raw with
  | Some v => inr v
  | None => inl (scanError raw)
  end.

(** [var x T; err := row.Scan(&x)]: the variable afterwards (its zero
    value when Scan failed) and the error. *)
Definition rowScan {T : Type} (zero : T) (decode : RawRow -> option T) (row : Row)
  : T * option error :=
  match row with
  | RowError e => (zero, Some e)
  | RowNone => (zero, Some ErrNoRows)
  | RowData raw =>
      match rowsScan decode raw with
      | inl e => (zero, Some e)
      | inr v => (v, None)
      end
  end.

Definition zeroUser : User := mkUser 0 "" "" "" 0 0.

Definition Create (u : User) : M (Z * option error) :=
  row <- poolQueryRow createQuery [Text (Username u); Text (Email u); Text (PassHash u)] ;;
  let (id, err) := rowScan 0 scanInt64 row in
  if IsNilable err ErrNoRows then
    ret (0, Some ErrUserAlreadyExists)
  else
    match err with
    | Some e =>
        logError "failed to create user" [mkField "error" (AnyError e)] ;;
        e' <- Errorf_w (Error ErrDB ++ ": " ++ Error e) ErrDB ;;
        ret (0, Some e')
    | None =>
        logInfo "created user with id: " [mkField "user_id" (AnyInt64 id)] ;;
        ret (id, None)
    end.

Definition GetByID (id : Z) : M (option User * option error) :=
  q <- poolQuery getByIDQuery [Int64 id] ;;
  let (rows, err) := q in
  match err with
  | Some e =>
      logError "failed to execute query GetByID"
        [mkField "error" (AnyError e); mkField "user_id" (AnyInt64 id)] ;;
      e' <- Errorf_w ("failed GetByID query: " ++ Error e) e ;;
      ret (None, Some e')
  | None =>
      match data rows with
      | raw :: _ =>
          match rowsScan scanUser raw with
          | inl e =>
              logError "failed to scan row GetByID"
                [mkField "error" (AnyError e); mkField "user_id" (AnyInt64 id)] ;;
              e' <- Errorf_w ("scan GetByID row: " ++ Error e) e ;;
              ret (None, Some e')
          | inr u => ret (Some u, None)
          end
      | [] =>
          match pgx.err rows with
          | Some e =>
              logError "rows iteration err GetByID"
                [mkField "error" (AnyError e); mkField "user_id" (AnyInt64 id)] ;;
              e' <- Errorf_w ("rows integration GetByID: " ++ Error e) e ;;
              ret (None, Some e')
          | None =>
              notFound <- Errorf ("user with id " ++ fmt.d id ++ " not found") ;;
              logInfo "user not found" [mkField "user_id" (AnyInt64 id)] ;;
              ret (None, Some notFound)
          end
      end
  end.

Definition Update (u : User) : M (option User * option error) :=
  row <- poolQueryRow updateQuery
           [Text (Username u); Text (Email u); Text (PassHash u); Int64 (ID u)] ;;
  let (usr, err) := rowScan zeroUser scanUser row in
  match err with
  | Some e =>
      logError "failed to execute query Update"
        [mkField "error" (AnyError e); mkField "user_id" (AnyInt64 (ID u))] ;;
      if Is e ErrNoRows then
        logError "user not found" [mkField "user_id" (AnyInt64 (ID u))] ;;
        e' <- Errorf_w ("user with id " ++ fmt.d (ID u) ++ " not found: " ++ Error e) e ;;
        ret (None, Some e')
      else
        e' <- Errorf_w ("failed query Update: " ++ Error e) e ;;
        ret (None, Some e')
  | None => ret (Some usr, None)
  end.

Definition Delete (id : Z) : M (option error) :=
  r <- poolExec deleteQuery [Int64 id] ;;
  let (cmdTag, err) := r in
  match err with
  | Some e =>
      logError "failed to execute query Delete"
        [mkField "error" (AnyError e); mkField "user_id" (AnyInt64 id)] ;;
      e' <- Errorf_w ("failed delete user: " ++ Error e) e ;;
      ret (Some e')
  | None =>
      if RowsAffected cmdTag =? 0 then
        logError "user not found" [mkField "user_id" (AnyInt64 id)] ;;
        e' <- Errorf ("user with id " ++ fmt.d id ++ " not found") ;;
        ret (Some e')
      else
        ret None
  end.

(** The loop of List over the rows [Next] delivers: [inl] is the result
    List returns from inside the loop, [inr] the slice built when the
    loop ends. *)
Fixpoint listLoop (rest : list RawRow) (users : slice User)
  : M ((slice User * option error) + slice User) :=
  match rest with
  | [] => ret (inr users)
  | raw :: rest' =>
      match rowsScan scanUser raw with
      | inl e =>
          logError "failed scan List" [mkField "error" (AnyError e)] ;;
          e' <- Errorf_w ("failed scan user List: " ++ Error e) e ;;
          ret (inl (None, Some e'))
      | inr u => listLoop rest' (append users u)
      end
  end.

Definition List (limit offset : Z) : M (slice User * option error) :=
  q <- poolQuery listQuery [Int64 limit; Int64 offset] ;;
  let (rows, err) := q in
  match err with
  | Some e =>
      logError "failed to execute query List" [mkField "error" (AnyError e)] ;;
      e' <- Errorf_w ("failed query List: " ++ Error e) e ;;
      ret (None, Some e')
  | None =>
      r <- listLoop (data rows) None ;;
      match r with
      | inl returned => ret returned
      | inr users =>
          match pgx.err rows with
          | Some e =>
              logError "rows iteration error in users List" [mkField "error" (AnyError e)] ;;
              e' <- Errorf_w ("rows interation List: " ++ Error e) e ;;
              ret (None, Some e')
          | None => ret (users, None)
          end
      end
  end.

Definition Count : M (Z * option error) :=
  row <- poolQueryRow countQuery [] ;;
  let (count, err) := rowScan 0 scanInt64 row in
  match err with
  | Some e =>
      logError "failed execute query Count" [mkField "error" (AnyError e)] ;;
      e' <- Errorf_w ("failed query Count: " ++ Error e) e ;;
      ret (0, Some e')
  | None =>
      if count =? 0 then
        logError "not users found" [] ;;
        ret (0, Some ErrNoUsers)
      else
        ret (count, None)
  end.


(** ** Statements about the repository that turn out not to hold *)

(** Create on a failure other than the zero-rows condition: the returned
    error matches both [ErrDB] and the failure itself. *)
Definition Create_wraps_root_cause (u : User) (w : World) : Prop :=
  forall row p' cause,
    QueryRow db createQuery [Text (Username u); Text (Email u); Text (PassHash u)]
      (pool w) = (row, p') ->
    snd (rowScan 0 scanInt64 row) = Some cause ->
    Is cause ErrNoRows = false ->
    exists e,
      result (Create u w) = (0, Some e) /\ Is e ErrDB = true /\ Is e cause = true.

(** GetByID fails in one of three ways only: the query failed, no row was
    found, or the row could not be scanned. *)
Definition GetByID_exactly_three (id : Z) (w : World) : Prop :=
  forall e,
    snd (result (GetByID id w)) = Some e ->
    (exists cause,
        e = wrapError (Heap (brk w)) ("failed GetByID query: " ++ Error cause) cause) \/
    e = errorString (Heap (brk w)) ("user with id " ++ fmt.d id ++ " not found") \/
    (exists cause,
        e = wrapError (Heap (brk w)) ("scan GetByID row: " ++ Error cause) cause).

(** Delete returns no error exactly when the statement ran and reported at
    least one affected row. *)
Definition Delete_nil_iff_at_least_one (id : Z) (w : World) : Prop :=
  result (Delete id w) = None <->
  exists tag p',
    Exec db deleteQuery [Int64 id] (pool w) = ((tag, None), p') /\
    1 <= RowsAffected tag.

(** A Delete that follows a successful Delete of the same id returns the
    not-found error. *)
Definition Delete_twice_not_found (id : Z) (w : World) : Prop :=
  result (Delete id w) = None ->
  let w1 := world (Delete id w) in
  result (Delete id w1) =
    Some (errorString (Heap (brk w1)) ("user with id " ++ fmt.d id ++ " not found")).

(** An operation that returns an error has logged at error severity. *)
Definition logsAtError (tr : list Action) : Prop :=
  exists msg fields, In (Log ErrorLevel msg fields) tr.

Definition Create_failure_logged (u : User) (w : World) : Prop :=
  snd (result (Create u w)) <> None -> logsAtError (trace (Create u w)).

Definition GetByID_failure_logged (id : Z) (w : World) : Prop :=
  snd (result (GetByID id w)) <> None -> logsAtError (trace (GetByID id w)).

(** ** Reading a trace *)

Definition isPoolCall (a : Action) : bool :=
  match a with
  | Log _ _ _ => false
  | _ => true
  end.

Definition poolCalls (tr : list Action) : list Action := filter isPoolCall tr.

(** What a nil-started slice holds after appending [users] in order. *)
Definition sliceOf {A : Type} (users : list A) : slice A :=
  match users with
  | [] => None
  | _ => Some users
  end.

(** ** What the store is assumed to do *)

(** The count a command tag reports is a number of rows. *)
Definition CountsRows : Prop :=
  forall sql args p, 0 <= RowsAffected (fst (fst (Exec db sql args p))).

(** Once the delete statement for [id] has run without an execution
    failure, running it again affects no row. *)
Definition DeleteRemoves : Prop :=
  forall id p tag p1,
    Exec db deleteQuery [Int64 id] p = ((tag, None), p1) ->
    exists tag2 p2,
      Exec db deleteQuery [Int64 id] p1 = ((tag2, None), p2) /\
      RowsAffected tag2 = 0.

(** ** Reasoning about runs *)

Ltac run :=
  cbv [bind ret poolExec poolQuery poolQueryRow logError logInfo Errorf Errorf_w];
  cbn [result trace world pool brk fst snd app].

Lemma Is_refl (e : error) : Is e e = true.
Proof.
  destruct e as [[n|n] s|[n|n] m c]; simpl;
    rewrite ?String.eqb_refl, ?N.eqb_refl; reflexivity.
Qed.

Lemma same_fresh (top : N) (msg : string) (inner e : error) :
  below top e = true -> same (wrapError (Heap top) msg inner) e = false.
Proof.
  destruct e as [p s|[n|n] m c]; simpl; intros H; try reflexivity.
  apply andb_prop in H as [H _]. apply N.ltb_lt in H.
  apply N.eqb_neq. lia.
Qed.

(** ** Create *)

(** C3: when the insert reports the zero-rows condition, Create returns
    identifier 0 and the [ErrUserAlreadyExists] sentinel itself, whatever
    the fields of the user are. *)
Theorem Create_conflict (u : User) (w : World) (row : Row) (p' : P)
  (id : Z) (err : option error) :
  QueryRow db createQuery [Text (Username u); Text (Email u); Text (PassHash u)]
    (pool w) = (row, p') ->
  rowScan 0 scanInt64 row = (id, err) ->
  IsNilable err ErrNoRows = true ->
  result (Create u w) = (0, Some ErrUserAlreadyExists).
Proof.
  intros Hq Hs Hno. unfold Create. run.
  rewrite Hq. cbn [fst snd]. rewrite Hs, Hno. reflexivity.
Qed.

(** C2, as the code has it: on any insert failure other than the zero-rows
    condition Create returns identifier 0 and a new error that wraps the
    [ErrDB] sentinel and carries the failure as text only; matching on
    [ErrDB] succeeds, and matching on the failure succeeds only when the
    failure is the [ErrDB] object. *)
Theorem Create_db_error (u : User) (w : World) (row : Row) (p' : P)
  (cause : error) :
  QueryRow db createQuery [Text (Username u); Text (Email u); Text (PassHash u)]
    (pool w) = (row, p') ->
  snd (rowScan 0 scanInt64 row) = Some cause ->
  Is cause ErrNoRows = false ->
  below (brk w) cause = true ->
  let e := wrapError (Heap (brk w)) ("database error: " ++ Error cause) ErrDB in
  result (Create u w) = (0, Some e) /\
  Is e ErrDB = true /\
  Unwrap e = Some ErrDB /\
  Is e cause = same ErrDB cause.
Proof.
  intros Hq Hs Hno Hb e. unfold Create. run.
  rewrite Hq. cbn [fst snd].
  destruct (rowScan 0 scanInt64 row) as [id err] eqn:E.
  cbn [snd] in Hs. subst err. cbn [IsNilable]. rewrite Hno. run.
  repeat split.
  unfold e. cbn [Is]. rewrite (same_fresh _ _ _ _ Hb).
  cbn. rewrite orb_false_r. reflexivity.
Qed.

(** ** Update *)

(** C4: when the update statement reports the zero-rows condition, Update
    returns a nil user and a not-found error naming the id that wraps the
    reported error, so matching on [ErrNoRows] succeeds; any other failure
    gives a nil user and the failure wrapped under "failed query Update";
    the update statement is the first thing Update does and its only call
    on the pool. *)
Theorem Update_failure (u : User) (w : World) :
  (forall row p' usr cause,
      QueryRow db updateQuery
        [Text (Username u); Text (Email u); Text (PassHash u); Int64 (ID u)]
        (pool w) = (row, p') ->
      rowScan zeroUser scanUser row = (usr, Some cause) ->
      (Is cause ErrNoRows = true ->
       let e := wrapError (Heap (brk w))
                  ("user with id " ++ fmt.d (ID u) ++ " not found: " ++ Error cause)
                  cause in
       result (Update u w) = (None, Some e) /\ Is e ErrNoRows = true) /\
      (Is cause ErrNoRows = false ->
       result (Update u w) =
         (None,
          Some (wrapError (Heap (brk w)) ("failed query Update: " ++ Error cause) cause)))) /\
  (exists rest,
      trace (Update u w) =
        PoolQueryRow updateQuery
          [Text (Username u); Text (Email u); Text (PassHash u); Int64 (ID u)] :: rest) /\
  poolCalls (trace (Update u w)) =
    [PoolQueryRow updateQuery
       [Text (Username u); Text (Email u); Text (PassHash u); Int64 (ID u)]].
Proof.
  split; [|split].
  - intros row p' usr cause Hq Hs. unfold Update. run.
    rewrite Hq. cbn [fst snd]. rewrite Hs. split; intros Hno.
    + rewrite Hno. run. split; [reflexivity|].
      cbn [Is]. rewrite Hno. apply orb_true_r.
    + rewrite Hno. run. reflexivity.
  - unfold Update. run. eexists. reflexivity.
  - unfold Update, poolCalls. run.
    destruct (rowScan zeroUser scanUser _) as [usr [e|]]; [|reflexivity].
    destruct (Is e ErrNoRows); reflexivity.
Qed.

(** C10: when the update statement ran and only the scan of the returned
    row fails, with an error that is not the zero-rows condition, Update
    returns the same "failed query Update" error it returns when the
    statement itself fails with that error; GetByID, for the same row,
    returns a "scan GetByID row" error. *)
Theorem Update_scan_failure_is_generic (u : User) (w w2 : World) (raw : RawRow)
  (p' p2 : P) :
  QueryRow db updateQuery
    [Text (Username u); Text (Email u); Text (PassHash u); Int64 (ID u)]
    (pool w) = (RowData raw, p') ->
  scanUser raw = None ->
  Is (scanError raw) ErrNoRows = false ->
  QueryRow db updateQuery
    [Text (Username u); Text (Email u); Text (PassHash u); Int64 (ID u)]
    (pool w2) = (RowError (scanError raw), p2) ->
  brk w2 = brk w ->
  result (Update u w) =
    (None,
     Some (wrapError (Heap (brk w))
             ("failed query Update: " ++ Error (scanError raw)) (scanError raw))) /\
  result (Update u w) = result (Update u w2) /\
  (forall id rest final pq,
      Query db getByIDQuery [Int64 id] (pool w) = ((mkRows (raw :: rest) final, None), pq) ->
      result (GetByID id w) =
        (None,
         Some (wrapError (Heap (brk w))
                 ("scan GetByID row: " ++ Error (scanError raw)) (scanError raw)))).
Proof.
  intros Hq Hdec Hno Hq2 Hbrk.
  assert (H1 : result (Update u w) =
    (None,
     Some (wrapError (Heap (brk w))
             ("failed query Update: " ++ Error (scanError raw)) (scanError raw)))).
  { unfold Update. run. rewrite Hq. cbn [fst snd rowScan].
    unfold rowsScan. rewrite Hdec, Hno. run. reflexivity. }
  split; [exact H1|split].
  - rewrite H1. unfold Update. run. rewrite Hq2. cbn [fst snd rowScan].
    rewrite Hno. run. rewrite Hbrk. reflexivity.
  - intros id rest final pq Hg. unfold GetByID. run.
    rewrite Hg. cbn [fst snd data]. unfold rowsScan. rewrite Hdec. run.
    reflexivity.
Qed.

(** ** GetByID *)

(** C1, as the code has it: GetByID has four failure outcomes, not three.
    A failed query gives nil and the cause wrapped under "failed GetByID
    query"; no row and no iteration error gives nil and a new not-found
    error naming the id, which matches none of the storage sentinels; no
    row and an iteration error gives nil and that error wrapped under
    "rows integration GetByID"; a row that does not scan gives nil and the
    scan error wrapped under "scan GetByID row"; a row that scans gives
    the user and no error. *)
Theorem GetByID_outcomes (id : Z) (w : World) (rows : Rows) (err : option error)
  (p' : P) :
  Query db getByIDQuery [Int64 id] (pool w) = ((rows, err), p') ->
  (forall cause, err = Some cause ->
     result (GetByID id w) =
       (None,
        Some (wrapError (Heap (brk w)) ("failed GetByID query: " ++ Error cause) cause))) /\
  (err = None -> data rows = [] -> pgx.err rows = None ->
     let notFound :=
       errorString (Heap (brk w)) ("user with id " ++ fmt.d id ++ " not found") in
     result (GetByID id w) = (None, Some notFound) /\
     Is notFound ErrUserAlreadyExists = false /\
     Is notFound ErrDB = false /\
     Is notFound ErrNoUsers = false) /\
  (forall cause, err = None -> data rows = [] -> pgx.err rows = Some cause ->
     result (GetByID id w) =
       (None,
        Some (wrapError (Heap (brk w)) ("rows integration GetByID: " ++ Error cause) cause))) /\
  (forall raw rest, err = None -> data rows = raw :: rest -> scanUser raw = None ->
     result (GetByID id w) =
       (None,
        Some (wrapError (Heap (brk w))
                ("scan GetByID row: " ++ Error (scanError raw)) (scanError raw)))) /\
  (forall raw rest u, err = None -> data rows = raw :: rest -> scanUser raw = Some u ->
     result (GetByID id w) = (Some u, None)).
Proof.
  intros Hq. unfold GetByID. run. rewrite Hq. cbn [fst snd].
  split; [|split; [|split; [|split]]].
  - intros cause ->. run. reflexivity.
  - intros -> Hd He. rewrite Hd, He. run. repeat split.
  - intros cause -> Hd He. rewrite Hd, He. run. reflexivity.
  - intros raw rest -> Hd Hs. rewrite Hd. unfold rowsScan. rewrite Hs. run.
    reflexivity.
  - intros raw rest u -> Hd Hs. rewrite Hd. unfold rowsScan. rewrite Hs. run.
    reflexivity.
Qed.

(** ** Delete *)

Lemma Delete_run (id : Z) (w : World) (tag : CommandTag) (err : option error)
  (p' : P) :
  Exec db deleteQuery [Int64 id] (pool w) = ((tag, err), p') ->
  result (Delete id w) =
    match err with
    | Some e => Some (wrapError (Heap (brk w)) ("failed delete user: " ++ Error e) e)
    | None =>
        if RowsAffected tag =? 0
        then Some (errorString (Heap (brk w)) ("user with id " ++ fmt.d id ++ " not found"))
        else None
    end /\
  pool (world (Delete id w)) = p'.
Proof.
  intros Hq. unfold Delete. run. rewrite Hq. cbn [fst snd].
  destruct err as [e|]; run; [split; reflexivity|].
  destruct (RowsAffected tag =? 0); run; split; reflexivity.
Qed.

(** C5, as the code has it: Delete returns no error exactly when the
    statement ran and reported a count other than zero; a count of zero
    gives a new not-found error naming the id; an execution failure gives
    the failure wrapped under "failed delete user".  Delete keeps nothing
    between calls: a second Delete of the same id runs the statement again
    on the pool as the first left it, and returns the not-found error
    exactly when that statement runs and reports zero rows. *)
Theorem Delete_outcomes (id : Z) (w : World) :
  (result (Delete id w) = None <->
     exists tag p',
       Exec db deleteQuery [Int64 id] (pool w) = ((tag, None), p') /\
       RowsAffected tag <> 0) /\
  (forall tag p',
      Exec db deleteQuery [Int64 id] (pool w) = ((tag, None), p') ->
      RowsAffected tag = 0 ->
      result (Delete id w) =
        Some (errorString (Heap (brk w)) ("user with id " ++ fmt.d id ++ " not found"))) /\
  (forall tag cause p',
      Exec db deleteQuery [Int64 id] (pool w) = ((tag, Some cause), p') ->
      result (Delete id w) =
        Some (wrapError (Heap (brk w)) ("failed delete user: " ++ Error cause) cause)) /\
  (let w1 := world (Delete id w) in
   pool w1 = snd (Exec db deleteQuery [Int64 id] (pool w)) /\
   trace (Delete id w1) <> [] /\
   hd_error (trace (Delete id w1)) = Some (PoolExec deleteQuery [Int64 id]) /\
   (result (Delete id w1) =
      Some (errorString (Heap (brk w1)) ("user with id " ++ fmt.d id ++ " not found")) <->
    exists tag2 p2,
      Exec db deleteQuery [Int64 id] (pool w1) = ((tag2, None), p2) /\
      RowsAffected tag2 = 0) /\
   (result (Delete id w1) = None <->
    exists tag2 p2,
      Exec db deleteQuery [Int64 id] (pool w1) = ((tag2, None), p2) /\
      RowsAffected tag2 <> 0)).
Proof.
  assert (Hnil : forall w0,
             result (Delete id w0) = None <->
             exists tag p',
               Exec db deleteQuery [Int64 id] (pool w0) = ((tag, None), p') /\
               RowsAffected tag <> 0).
  { intros w0.
    destruct (Exec db deleteQuery [Int64 id] (pool w0)) as [[tag err] p'] eqn:Hq.
    destruct (Delete_run id w0 tag err p' Hq) as [Hr _]. rewrite Hr. split.
    - destruct err as [e|]; [discriminate|].
      destruct (RowsAffected tag =? 0) eqn:Hz; [discriminate|]. intros _.
      apply Z.eqb_neq in Hz. exists tag, p'. split; [reflexivity|exact Hz].
    - intros (tag' & p'' & Heq & Hnz). inversion Heq; subst.
      apply Z.eqb_neq in Hnz. rewrite Hnz. reflexivity. }
  assert (Hnf : forall w0,
             result (Delete id w0) =
               Some (errorString (Heap (brk w0))
                       ("user with id " ++ fmt.d id ++ " not found")) <->
             exists tag p',
               Exec db deleteQuery [Int64 id] (pool w0) = ((tag, None), p') /\
               RowsAffected tag = 0).
  { intros w0.
    destruct (Exec db deleteQuery [Int64 id] (pool w0)) as [[tag err] p'] eqn:Hq.
    destruct (Delete_run id w0 tag err p' Hq) as [Hr _]. rewrite Hr. split.
    - destruct err as [e|]; [discriminate|].
      destruct (RowsAffected tag =? 0) eqn:Hz; [|discriminate]. intros _.
      apply Z.eqb_eq in Hz. exists tag, p'. split; [reflexivity|exact Hz].
    - intros (tag' & p'' & Heq & Hz). inversion Heq; subst.
      rewrite Hz. reflexivity. }
  split; [apply Hnil|]. split; [|split].
  - intros tag p' Hq Hz. apply Hnf. exists tag, p'. split; assumption.
  - intros tag cause p' Hq.
    destruct (Delete_run id w tag (Some cause) p' Hq) as [Hr _]. exact Hr.
  - intros w1. split; [|split; [|split; [|split]]].
    + destruct (Exec db deleteQuery [Int64 id] (pool w)) as [[tag err] p'] eqn:Hq.
      destruct (Delete_run id w tag err p' Hq) as [_ Hp]. exact Hp.
    + unfold Delete. run. discriminate.
    + unfold Delete. run. reflexivity.
    + apply Hnf.
    + apply Hnil.
Qed.

(** On a store that counts rows and has removed the row, the picture is the
    expected one: no error exactly when at least one row was affected, and
    not-found for a Delete repeated after a successful one. *)
Theorem Delete_on_counting_store (id : Z) (w : World) :
  CountsRows ->
  DeleteRemoves ->
  (result (Delete id w) = None <->
     exists tag p',
       Exec db deleteQuery [Int64 id] (pool w) = ((tag, None), p') /\
       1 <= RowsAffected tag) /\
  (forall tag p',
      Exec db deleteQuery [Int64 id] (pool w) = ((tag, None), p') ->
      RowsAffected tag = 0 ->
      result (Delete id w) =
        Some (errorString (Heap (brk w)) ("user with id " ++ fmt.d id ++ " not found"))) /\
  (forall tag cause p',
      Exec db deleteQuery [Int64 id] (pool w) = ((tag, Some cause), p') ->
      result (Delete id w) =
        Some (wrapError (Heap (brk w)) ("failed delete user: " ++ Error cause) cause)) /\
  (result (Delete id w) = None ->
     let w1 := world (Delete id w) in
     result (Delete id w1) =
       Some (errorString (Heap (brk w1)) ("user with id " ++ fmt.d id ++ " not found"))).
Proof.
  intros Hcount Hstore.
  destruct (Exec db deleteQuery [Int64 id] (pool w)) as [[tag err] p'] eqn:Hq.
  destruct (Delete_run id w tag err p' Hq) as [Hr Hp].
  assert (Hnonneg : 0 <= RowsAffected tag).
  { specialize (Hcount deleteQuery [Int64 id] (pool w)). rewrite Hq in Hcount.
    exact Hcount. }
  repeat split.
  - intros Hnil. rewrite Hr in Hnil. destruct err as [e|]; [discriminate|].
    exists tag, p'. split; [reflexivity|].
    destruct (RowsAffected tag =? 0) eqn:Hz; [discriminate|].
    apply Z.eqb_neq in Hz. lia.
  - intros (tag' & p'' & Heq & Hge). inversion Heq; subst. rewrite Hr.
    destruct (RowsAffected tag' =? 0) eqn:Hz; [|reflexivity].
    apply Z.eqb_eq in Hz. lia.
  - intros tag' p'' Heq Hz. inversion Heq; subst. rewrite Hr, Hz. reflexivity.
  - intros tag' cause p'' Heq. inversion Heq; subst. exact Hr.
  - intros Hnil w1. rewrite Hr in Hnil. destruct err as [e|]; [discriminate|].
    destruct (Hstore id (pool w) tag p' Hq) as (tag2 & p2 & Hq2 & Hz2).
    assert (Hp1 : pool w1 = p') by exact Hp.
    rewrite <- Hp1 in Hq2.
    destruct (Delete_run id w1 tag2 None p2 Hq2) as [Hr2 _].
    rewrite Hr2, Hz2. reflexivity.
Qed.

(** ** Count *)

(** C6: a scanned count of zero gives value 0 and the [ErrNoUsers]
    sentinel; any other count is returned unchanged with no error; when
    the Scan of the aggregate row reports an error (the query failed, or
    the row did not decode) Count gives value 0 and that error wrapped
    under "failed query Count". *)
Theorem Count_spec (w : World) (row : Row) (p' : P) (count : Z)
  (err : option error) :
  QueryRow db countQuery [] (pool w) = (row, p') ->
  rowScan 0 scanInt64 row = (count, err) ->
  (err = None -> count = 0 -> result (Count w) = (0, Some ErrNoUsers)) /\
  (err = None -> count <> 0 -> result (Count w) = (count, None)) /\
  (forall cause, err = Some cause ->
     result (Count w) =
       (0, Some (wrapError (Heap (brk w)) ("failed query Count: " ++ Error cause) cause))).
Proof.
  intros Hq Hs. unfold Count. run. rewrite Hq. cbn [fst snd]. rewrite Hs.
  split; [|split].
  - intros -> ->. reflexivity.
  - intros -> Hnz. apply Z.eqb_neq in Hnz. rewrite Hnz. reflexivity.
  - intros cause ->. reflexivity.
Qed.

(** ** List *)

Lemma fold_append_Some {A : Type} (users l : list A) :
  fold_left append users (Some l) = Some (l ++ users)%list.
Proof.
  revert l. induction users as [|u users IH]; intros l; simpl.
  - rewrite app_nil_r. reflexivity.
  - rewrite IH, <- app_assoc. reflexivity.
Qed.

Lemma fold_append_nil {A : Type} (users : list A) :
  fold_left append users None = sliceOf users.
Proof.
  destruct users as [|u users]; simpl; [reflexivity|].
  rewrite fold_append_Some. reflexivity.
Qed.

Lemma listLoop_all (rest : list RawRow) :
  forall (users : list User) (acc : slice User) (w : World),
    map scanUser rest = map Some users ->
    listLoop rest acc w = mkOutcome (inr (fold_left append users acc)) [] w.
Proof.
  induction rest as [|raw rest IH]; intros users acc w Hm.
  - destruct users; [reflexivity|discriminate].
  - destruct users as [|u users]; [discriminate|].
    simpl in Hm. injection Hm as Hu Hm.
    cbn [listLoop]. unfold rowsScan. rewrite Hu.
    rewrite (IH users _ w Hm). reflexivity.
Qed.

Lemma listLoop_scan_fails (pre : list RawRow) :
  forall (upre : list User) (raw : RawRow) (post : list RawRow)
         (acc : slice User) (w : World),
    map scanUser pre = map Some upre ->
    scanUser raw = None ->
    listLoop (pre ++ raw :: post)%list acc w =
      mkOutcome
        (inl (None,
              Some (wrapError (Heap (brk w))
                      ("failed scan user List: " ++ Error (scanError raw))
                      (scanError raw))))
        [Log ErrorLevel "failed scan List" [mkField "error" (AnyError (scanError raw))]]
        (mkWorld (pool w) (N.succ (brk w))).
Proof.
  induction pre as [|r pre IH]; intros upre raw post acc w Hm Hs.
  - cbn [app listLoop]. unfold rowsScan. rewrite Hs. run. reflexivity.
  - destruct upre as [|u upre]; [discriminate|].
    simpl in Hm. injection Hm as Hu Hm.
    cbn [app listLoop]. unfold rowsScan. rewrite Hu.
    apply (IH upre); assumption.
Qed.

(** C7: List returns the scanned users in cursor order; a row that does
    not scan makes it return a nil slice and the scan error wrapped under
    "failed scan user List", whatever was scanned before; an iteration
    error after the loop makes it return a nil slice and that error
    wrapped under "rows interation List"; an empty result set gives a nil
    slice and no error. *)
Theorem List_spec (limit offset : Z) (w : World) (rows : Rows) (p' : P) :
  Query db listQuery [Int64 limit; Int64 offset] (pool w) = ((rows, None), p') ->
  (forall users,
      map scanUser (data rows) = map Some users ->
      pgx.err rows = None ->
      result (List limit offset w) = (sliceOf users, None)) /\
  (forall pre upre raw post,
      data rows = (pre ++ raw :: post)%list ->
      map scanUser pre = map Some upre ->
      scanUser raw = None ->
      result (List limit offset w) =
        (None,
         Some (wrapError (Heap (brk w))
                 ("failed scan user List: " ++ Error (scanError raw))
                 (scanError raw)))) /\
  (forall users cause,
      map scanUser (data rows) = map Some users ->
      pgx.err rows = Some cause ->
      result (List limit offset w) =
        (None,
         Some (wrapError (Heap (brk w)) ("rows interation List: " ++ Error cause) cause))) /\
  (data rows = [] -> pgx.err rows = None ->
   result (List limit offset w) = (None, None)).
Proof.
  intros Hq. unfold List. run. rewrite Hq. cbn [fst snd].
  split; [|split; [|split]].
  - intros users Hm He. rewrite (listLoop_all _ users _ _ Hm).
    cbn [result world]. rewrite He. run. rewrite fold_append_nil. reflexivity.
  - intros pre upre raw post Hd Hm Hs.
    rewrite Hd, (listLoop_scan_fails pre upre raw post _ _ Hm Hs).
    reflexivity.
  - intros users cause Hm He. rewrite (listLoop_all _ users _ _ Hm).
    cbn [result world]. rewrite He. run. reflexivity.
  - intros Hd He. rewrite Hd. cbn [listLoop]. run. rewrite He. reflexivity.
Qed.

(** ** Every path of every operation *)

Lemma Create_cases (u : User) (w : World) :
  (result (Create u w) = (0, Some ErrUserAlreadyExists) /\
   trace (Create u w) =
     [PoolQueryRow createQuery [Text (Username u); Text (Email u); Text (PassHash u)]]) \/
  (exists cause,
      result (Create u w) =
        (0, Some (wrapError (Heap (brk w)) ("database error: " ++ Error cause) ErrDB)) /\
      trace (Create u w) =
        [PoolQueryRow createQuery [Text (Username u); Text (Email u); Text (PassHash u)];
         Log ErrorLevel "failed to create user" [mkField "error" (AnyError cause)]]) \/
  (exists id, result (Create u w) = (id, None)).
Proof.
  unfold Create. run.
  destruct (rowScan 0 scanInt64 _) as [id [e|]]; cbn [IsNilable].
  - destruct (Is e ErrNoRows); run.
    + left. split; reflexivity.
    + right; left. exists e. split; reflexivity.
  - run. right; right. exists id. reflexivity.
Qed.

Lemma GetByID_cases (id : Z) (w : World) :
  (exists msg lmsg cause,
      result (GetByID id w) = (None, Some (wrapError (Heap (brk w)) msg cause)) /\
      trace (GetByID id w) =
        [PoolQuery getByIDQuery [Int64 id];
         Log ErrorLevel lmsg
           [mkField "error" (AnyError cause); mkField "user_id" (AnyInt64 id)]]) \/
  (result (GetByID id w) =
     (None, Some (errorString (Heap (brk w)) ("user with id " ++ fmt.d id ++ " not found"))) /\
   trace (GetByID id w) =
     [PoolQuery getByIDQuery [Int64 id];
      Log InfoLevel "user not found" [mkField "user_id" (AnyInt64 id)]]) \/
  (exists u, result (GetByID id w) = (Some u, None)).
Proof.
  unfold GetByID. run.
  destruct (Query db getByIDQuery [Int64 id] (pool w)) as [[rows [e|]] p']; cbn [fst snd]; run.
  - left. do 3 eexists. split; reflexivity.
  - destruct (data rows) as [|raw rest].
    + destruct (pgx.err rows) as [e|]; run.
      * left. do 3 eexists. split; reflexivity.
      * right; left. split; reflexivity.
    + destruct (rowsScan scanUser raw) as [e|usr]; run.
      * left. do 3 eexists. split; reflexivity.
      * right; right. eexists. reflexivity.
Qed.

Lemma Update_cases (u : User) (w : World) :
  (exists msg cause,
      result (Update u w) = (None, Some (wrapError (Heap (brk w)) msg cause)) /\
      In (Log ErrorLevel "failed to execute query Update"
            [mkField "error" (AnyError cause); mkField "user_id" (AnyInt64 (ID u))])
         (trace (Update u w))) \/
  (exists usr, result (Update u w) = (Some usr, None)).
Proof.
  unfold Update. run.
  destruct (rowScan zeroUser scanUser _) as [usr [e|]].
  - left. destruct (Is e ErrNoRows); run; do 2 eexists;
      (split; [reflexivity|right; left; reflexivity]).
  - right. run. eexists. reflexivity.
Qed.

Lemma Delete_cases (id : Z) (w : World) :
  (exists cause,
      result (Delete id w) =
        Some (wrapError (Heap (brk w)) ("failed delete user: " ++ Error cause) cause) /\
      trace (Delete id w) =
        [PoolExec deleteQuery [Int64 id];
         Log ErrorLevel "failed to execute query Delete"
           [mkField "error" (AnyError cause); mkField "user_id" (AnyInt64 id)]]) \/
  (result (Delete id w) =
     Some (errorString (Heap (brk w)) ("user with id " ++ fmt.d id ++ " not found")) /\
   trace (Delete id w) =
     [PoolExec deleteQuery [Int64 id];
      Log ErrorLevel "user not found" [mkField "user_id" (AnyInt64 id)]]) \/
  result (Delete id w) = None.
Proof.
  unfold Delete. run.
  destruct (Exec db deleteQuery [Int64 id] (pool w)) as [[tag [e|]] p']; cbn [fst snd]; run.
  - left. eexists. split; reflexivity.
  - destruct (RowsAffected tag =? 0); run.
    + right; left. split; reflexivity.
    + right; right. reflexivity.
Qed.

Lemma listLoop_cases (rest : list RawRow) :
  forall (acc : slice User) (w : World),
    (exists users, listLoop rest acc w = mkOutcome (inr users) [] w) \/
    (exists cause,
        listLoop rest acc w =
          mkOutcome
            (inl (None,
                  Some (wrapError (Heap (brk w))
                          ("failed scan user List: " ++ Error cause) cause)))
            [Log ErrorLevel "failed scan List" [mkField "error" (AnyError cause)]]
            (mkWorld (pool w) (N.succ (brk w)))).
Proof.
  induction rest as [|raw rest IH]; intros acc w; cbn [listLoop].
  - left. eexists. reflexivity.
  - destruct (rowsScan scanUser raw) as [e|u].
    + right. exists e. run. reflexivity.
    + apply IH.
Qed.

Lemma List_cases (limit offset : Z) (w : World) :
  (exists msg lmsg cause,
      result (List limit offset w) = (None, Some (wrapError (Heap (brk w)) msg cause)) /\
      In (Log ErrorLevel lmsg [mkField "error" (AnyError cause)])
         (trace (List limit offset w))) \/
  (exists users, result (List limit offset w) = (users, None)).
Proof.
  unfold List. run.
  destruct (Query db listQuery _ (pool w)) as [[rows [e|]] p']; cbn [fst snd]; run.
  - left. do 3 eexists. split; [reflexivity|right; left; reflexivity].
  - destruct (listLoop_cases (data rows) None (mkWorld p' (brk w)))
      as [[users Hl]|[cause Hl]]; rewrite Hl; cbn [result trace world pool brk app].
    + destruct (pgx.err rows) as [e|]; run.
      * left. do 3 eexists. split; [reflexivity|right; left; reflexivity].
      * right. eexists. reflexivity.
    + left. do 3 eexists. split; [reflexivity|right; left; reflexivity].
Qed.

Lemma Count_cases (w : World) :
  (exists cause,
      result (Count w) =
        (0, Some (wrapError (Heap (brk w)) ("failed query Count: " ++ Error cause) cause)) /\
      trace (Count w) =
        [PoolQueryRow countQuery [];
         Log ErrorLevel "failed execute query Count" [mkField "error" (AnyError cause)]]) \/
  (result (Count w) = (0, Some ErrNoUsers) /\
   trace (Count w) =
     [PoolQueryRow countQuery []; Log ErrorLevel "not users found" []]) \/
  (exists count, result (Count w) = (count, None)).
Proof.
  unfold Count. run.
  destruct (rowScan 0 scanInt64 _) as [count [e|]]; run.
  - left. eexists. split; reflexivity.
  - destruct (count =? 0); run.
    + right; left. split; reflexivity.
    + right; right. eexists. reflexivity.
Qed.

Lemma no_error_log_2 (a : Action) (msg : string) (fields : list Field) :
  isPoolCall a = true -> ~ logsAtError [a; Log InfoLevel msg fields].
Proof.
  intros Ha (m & f & [H|[H|[]]]); [subst a|]; discriminate.
Qed.

Lemma no_error_log_1 (a : Action) : isPoolCall a = true -> ~ logsAtError [a].
Proof.
  intros Ha (m & f & [H|[]]). subst a. discriminate.
Qed.

(** ** All operations *)

Lemma listLoop_split (rest : list RawRow) :
  forall (acc : slice User) (w : World),
    (exists users,
        map scanUser rest = map Some users /\
        listLoop rest acc w = mkOutcome (inr (fold_left append users acc)) [] w) \/
    (exists pre upre raw post,
        rest = (pre ++ raw :: post)%list /\
        map scanUser pre = map Some upre /\
        scanUser raw = None /\
        listLoop rest acc w =
          mkOutcome
            (inl (None,
                  Some (wrapError (Heap (brk w))
                          ("failed scan user List: " ++ Error (scanError raw))
                          (scanError raw))))
            [Log ErrorLevel "failed scan List" [mkField "error" (AnyError (scanError raw))]]
            (mkWorld (pool w) (N.succ (brk w)))).
Proof.
  induction rest as [|raw rest IH]; intros acc w.
  - left. exists []. split; reflexivity.
  - destruct (scanUser raw) as [u|] eqn:Hs.
    + destruct (IH (append acc u) w)
        as [(users & Hm & Hl)|(pre & upre & bad & post & Hr & Hm & Hb & Hl)].
      * left. exists (u :: users). split; [simpl; rewrite Hs, Hm; reflexivity|].
        cbn [listLoop]. unfold rowsScan. rewrite Hs. exact Hl.
      * right. exists (raw :: pre), (u :: upre), bad, post.
        split; [rewrite Hr; reflexivity|].
        split; [simpl; rewrite Hs, Hm; reflexivity|].
        split; [exact Hb|].
        cbn [listLoop]. unfold rowsScan. rewrite Hs. exact Hl.
    + right. exists [], [], raw, rest. repeat split; try assumption.
      cbn [listLoop]. unfold rowsScan. rewrite Hs. run. reflexivity.
Qed.

(** C8, as the code has it.  Whenever an operation returns an error, what
    it did before returning is exactly this.  Create on the zero-rows
    condition: the insert and nothing else, no call on the logger at all.
    Create on another failure: the insert, then one call at error severity
    with the error Scan reported under "error".  GetByID finding no row:
    the query, then one call at info severity with the id.  GetByID on a
    query, iteration or scan failure: the query, then one call at error
    severity with that failure under "error" and the id under "user_id".
    Update: the statement, then one call at error severity with the error
    Scan reported and the id, then a second one with the id when that
    error is the zero-rows condition.  Delete: the statement, then one call
    at error severity, with the failure and the id when the statement
    failed, with the id alone when no row was affected.  List: the query,
    then one call at error severity with the query, scan or iteration
    failure.  Count: the query, then one call at error severity, with the
    error Scan reported, or with no field when the count is zero.  The
    error returned wraps the failure that was logged, except in Create,
    where it wraps [ErrDB]. *)
Theorem failures_logged :
  (forall u w e,
      snd (result (Create u w)) = Some e ->
      let insert :=
        PoolQueryRow createQuery [Text (Username u); Text (Email u); Text (PassHash u)] in
      exists cause,
        snd (rowScan 0 scanInt64
               (fst (QueryRow db createQuery
                       [Text (Username u); Text (Email u); Text (PassHash u)] (pool w)))) =
          Some cause /\
        ((Is cause ErrNoRows = true /\
          e = ErrUserAlreadyExists /\
          trace (Create u w) = [insert]) \/
         (Is cause ErrNoRows = false /\
          e = wrapError (Heap (brk w)) ("database error: " ++ Error cause) ErrDB /\
          trace (Create u w) =
            [insert;
             Log ErrorLevel "failed to create user" [mkField "error" (AnyError cause)]]))) /\
  (forall id w e,
      snd (result (GetByID id w)) = Some e ->
      exists rows err p',
        Query db getByIDQuery [Int64 id] (pool w) = ((rows, err), p') /\
        ((err = None /\ data rows = [] /\ pgx.err rows = None /\
          e = errorString (Heap (brk w)) ("user with id " ++ fmt.d id ++ " not found") /\
          trace (GetByID id w) =
            [PoolQuery getByIDQuery [Int64 id];
             Log InfoLevel "user not found" [mkField "user_id" (AnyInt64 id)]]) \/
         (exists lmsg cause,
             Unwrap e = Some cause /\
             trace (GetByID id w) =
               [PoolQuery getByIDQuery [Int64 id];
                Log ErrorLevel lmsg
                  [mkField "error" (AnyError cause); mkField "user_id" (AnyInt64 id)]] /\
             ((err = Some cause /\ lmsg = "failed to execute query GetByID") \/
              (err = None /\ data rows = [] /\ pgx.err rows = Some cause /\
               lmsg = "rows iteration err GetByID") \/
              (exists raw rest,
                  err = None /\ data rows = raw :: rest /\ scanUser raw = None /\
                  cause = scanError raw /\ lmsg = "failed to scan row GetByID"))))) /\
  (forall u w e,
      snd (result (Update u w)) = Some e ->
      let args := [Text (Username u); Text (Email u); Text (PassHash u); Int64 (ID u)] in
      exists usr cause,
        rowScan zeroUser scanUser (fst (QueryRow db updateQuery args (pool w))) =
          (usr, Some cause) /\
        Unwrap e = Some cause /\
        trace (Update u w) =
          (PoolQueryRow updateQuery args ::
           Log ErrorLevel "failed to execute query Update"
             [mkField "error" (AnyError cause); mkField "user_id" (AnyInt64 (ID u))] ::
           if Is cause ErrNoRows
           then [Log ErrorLevel "user not found" [mkField "user_id" (AnyInt64 (ID u))]]
           else [])) /\
  (forall id w e,
      result (Delete id w) = Some e ->
      exists tag err p',
        Exec db deleteQuery [Int64 id] (pool w) = ((tag, err), p') /\
        ((exists cause,
             err = Some cause /\ Unwrap e = Some cause /\
             trace (Delete id w) =
               [PoolExec deleteQuery [Int64 id];
                Log ErrorLevel "failed to execute query Delete"
                  [mkField "error" (AnyError cause); mkField "user_id" (AnyInt64 id)]]) \/
         (err = None /\ RowsAffected tag = 0 /\ Unwrap e = None /\
          trace (Delete id w) =
            [PoolExec deleteQuery [Int64 id];
             Log ErrorLevel "user not found" [mkField "user_id" (AnyInt64 id)]]))) /\
  (forall limit offset w e,
      snd (result (List limit offset w)) = Some e ->
      exists rows err p' lmsg cause,
        Query db listQuery [Int64 limit; Int64 offset] (pool w) = ((rows, err), p') /\
        Unwrap e = Some cause /\
        trace (List limit offset w) =
          [PoolQuery listQuery [Int64 limit; Int64 offset];
           Log ErrorLevel lmsg [mkField "error" (AnyError cause)]] /\
        ((err = Some cause /\ lmsg = "failed to execute query List") \/
         (exists pre upre raw post,
             err = None /\ data rows = (pre ++ raw :: post)%list /\
             map scanUser pre = map Some upre /\ scanUser raw = None /\
             cause = scanError raw /\ lmsg = "failed scan List") \/
         (exists users,
             err = None /\ map scanUser (data rows) = map Some users /\
             pgx.err rows = Some cause /\
             lmsg = "rows iteration error in users List"))) /\
  (forall w e,
      snd (result (Count w)) = Some e ->
      exists count err,
        rowScan 0 scanInt64 (fst (QueryRow db countQuery [] (pool w))) = (count, err) /\
        ((exists cause,
             err = Some cause /\ Unwrap e = Some cause /\
             trace (Count w) =
               [PoolQueryRow countQuery [];
                Log ErrorLevel "failed execute query Count"
                  [mkField "error" (AnyError cause)]]) \/
         (err = None /\ count = 0 /\ e = ErrNoUsers /\
          trace (Count w) =
            [PoolQueryRow countQuery []; Log ErrorLevel "not users found" []]))).
Proof.
  split; [|split; [|split; [|split; [|split]]]].
  - intros u w e. unfold Create. run.
    destruct (rowScan 0 scanInt64 _) as [id [cause|]] eqn:Hs; cbn [IsNilable snd].
    + destruct (Is cause ErrNoRows) eqn:Hno; run; intros He; injection He as <-;
        exists cause; (split; [reflexivity|]).
      * left. repeat split. exact Hno.
      * right. repeat split. exact Hno.
    + run. discriminate.
  - intros id w e. unfold GetByID. run.
    destruct (Query db getByIDQuery [Int64 id] (pool w)) as [[rows err] p'] eqn:Hq.
    cbn [fst snd]. destruct err as [cause|]; run.
    + intros He; injection He as <-. exists rows, (Some cause), p'.
      split; [reflexivity|]. right. exists "failed to execute query GetByID", cause.
      split; [reflexivity|]. split; [reflexivity|]. left. split; reflexivity.
    + destruct (data rows) as [|raw rest] eqn:Hd.
      * destruct (pgx.err rows) as [cause|] eqn:Hr; run; intros He; injection He as <-;
          exists rows, None, p'; (split; [reflexivity|]).
        -- right. exists "rows iteration err GetByID", cause.
           split; [reflexivity|]. split; [reflexivity|].
           right; left. repeat split; assumption.
        -- left. repeat split; assumption.
      * unfold rowsScan. destruct (scanUser raw) as [usr|] eqn:Hs; run; [discriminate|].
        intros He; injection He as <-. exists rows, None, p'. split; [reflexivity|].
        right. exists "failed to scan row GetByID", (scanError raw).
        split; [reflexivity|]. split; [reflexivity|].
        right; right. exists raw, rest. repeat split; assumption.
  - intros u w e. unfold Update. run.
    destruct (rowScan zeroUser scanUser _) as [usr [cause|]] eqn:Hs; [|run; discriminate].
    destruct (Is cause ErrNoRows) eqn:Hno; run; intros He; injection He as <-;
      exists usr, cause; rewrite Hno; repeat split.
  - intros id w e. unfold Delete. run.
    destruct (Exec db deleteQuery [Int64 id] (pool w)) as [[tag err] p'] eqn:Hq.
    cbn [fst snd]. destruct err as [cause|]; run.
    + intros He; injection He as <-. exists tag, (Some cause), p'.
      split; [reflexivity|]. left. exists cause. repeat split.
    + destruct (RowsAffected tag =? 0) eqn:Hz; run; [|discriminate].
      intros He; injection He as <-. exists tag, None, p'.
      split; [reflexivity|]. right. apply Z.eqb_eq in Hz. repeat split. exact Hz.
  - intros limit offset w e. unfold List. run.
    destruct (Query db listQuery _ (pool w)) as [[rows err] p'] eqn:Hq.
    cbn [fst snd]. destruct err as [cause|]; run.
    + intros He; injection He as <-.
      exists rows, (Some cause), p', "failed to execute query List", cause.
      split; [reflexivity|]. split; [reflexivity|]. split; [reflexivity|].
      left. split; reflexivity.
    + destruct (listLoop_split (data rows) None (mkWorld p' (brk w)))
        as [(users & Hm & Hl)|(pre & upre & raw & post & Hd & Hm & Hs & Hl)];
        rewrite Hl; cbn [result trace world pool brk app].
      * destruct (pgx.err rows) as [cause|] eqn:Hr; run; [|discriminate].
        intros He; injection He as <-.
        exists rows, None, p', "rows iteration error in users List", cause.
        split; [reflexivity|]. split; [reflexivity|]. split; [reflexivity|].
        right; right. exists users. repeat split; assumption.
      * intros He; injection He as <-.
        exists rows, None, p', "failed scan List", (scanError raw).
        split; [reflexivity|]. split; [reflexivity|]. split; [reflexivity|].
        right; left. exists pre, upre, raw, post. repeat split; assumption.
  - intros w e. unfold Count. run.
    destruct (rowScan 0 scanInt64 _) as [count [cause|]] eqn:Hs; run.
    + intros He; injection He as <-. exists count, (Some cause).
      split; [reflexivity|]. left. exists cause. repeat split.
    + destruct (count =? 0) eqn:Hz; run; [|discriminate].
      intros He; injection He as <-. exists count, None. split; [reflexivity|].
      right. apply Z.eqb_eq in Hz. repeat split. exact Hz.
Qed.

(** C9: Create returns identifier 0 whenever it returns an error; GetByID
    and Update return a nil user whenever they return an error and a
    non-nil user whenever they do not; List returns a nil slice whenever
    it returns an error; Count returns 0 whenever it returns an error. *)
Theorem result_or_error :
  (forall u w, snd (result (Create u w)) <> None -> fst (result (Create u w)) = 0) /\
  (forall id w,
      (snd (result (GetByID id w)) <> None -> fst (result (GetByID id w)) = None) /\
      (snd (result (GetByID id w)) = None -> fst (result (GetByID id w)) <> None)) /\
  (forall u w,
      (snd (result (Update u w)) <> None -> fst (result (Update u w)) = None) /\
      (snd (result (Update u w)) = None -> fst (result (Update u w)) <> None)) /\
  (forall limit offset w,
      snd (result (List limit offset w)) <> None ->
      fst (result (List limit offset w)) = None) /\
  (forall w, snd (result (Count w)) <> None -> fst (result (Count w)) = 0).
Proof.
  repeat apply conj.
  - intros u w.
    destruct (Create_cases u w) as [[Hr _]|[(cause & Hr & _)|(id & Hr)]];
      rewrite Hr; cbn [fst snd]; congruence.
  - intros id w.
    destruct (GetByID_cases id w) as [(msg & lmsg & cause & Hr & _)|[[Hr _]|(u & Hr)]];
      rewrite Hr; cbn [fst snd]; split; congruence.
  - intros u w.
    destruct (Update_cases u w) as [(msg & cause & Hr & _)|(usr & Hr)];
      rewrite Hr; cbn [fst snd]; split; congruence.
  - intros limit offset w.
    destruct (List_cases limit offset w) as [(msg & lmsg & cause & Hr & _)|(users & Hr)];
      rewrite Hr; cbn [fst snd]; congruence.
  - intros w.
    destruct (Count_cases w) as [(cause & Hr & _)|[[Hr _]|(count & Hr)]];
      rewrite Hr; cbn [fst snd]; congruence.
Qed.

(** ** Further properties of the operations *)

Lemma listLoop_quiet (rest : list RawRow) :
  forall (acc : slice User) (w : World),
    poolCalls (trace (listLoop rest acc w)) = [] /\
    pool (world (listLoop rest acc w)) = pool w.
Proof.
  intros acc w.
  destruct (listLoop_cases rest acc w) as [[users Hl]|[cause Hl]];
    rewrite Hl; split; reflexivity.
Qed.


Lemma not_logged_1 (a : Action) : isPoolCall a = true -> ~ logsAtError [a].
Proof.
  intros Ha (m & f & [H|[]]). subst a. discriminate.
Qed.

(** An operation that returns no error has made no call at error severity
    on the logger. *)
Theorem success_not_logged_as_error :
  (forall u w, snd (result (Create u w)) = None -> ~ logsAtError (trace (Create u w))) /\
  (forall id w,
      snd (result (GetByID id w)) = None -> ~ logsAtError (trace (GetByID id w))) /\
  (forall u w, snd (result (Update u w)) = None -> ~ logsAtError (trace (Update u w))) /\
  (forall id w, result (Delete id w) = None -> ~ logsAtError (trace (Delete id w))) /\
  (forall limit offset w,
      snd (result (List limit offset w)) = None ->
      ~ logsAtError (trace (List limit offset w))) /\
  (forall w, snd (result (Count w)) = None -> ~ logsAtError (trace (Count w))).
Proof.
  repeat apply conj.
  - intros u w. unfold Create. run.
    destruct (rowScan 0 scanInt64 _) as [id [e|]]; cbn [IsNilable].
    + destruct (Is e ErrNoRows); run; discriminate.
    + run. intros _. apply no_error_log_2. reflexivity.
  - intros id w. unfold GetByID. run.
    destruct (Query db getByIDQuery [Int64 id] (pool w)) as [[rows [e|]] p'];
      cbn [fst snd]; run; [discriminate|].
    destruct (data rows) as [|raw rest].
    + destruct (pgx.err rows); run; discriminate.
    + destruct (rowsScan scanUser raw); run; [discriminate|].
      intros _. apply not_logged_1. reflexivity.
  - intros u w. unfold Update. run.
    destruct (rowScan zeroUser scanUser _) as [usr [e|]].
    + destruct (Is e ErrNoRows); run; discriminate.
    + run. intros _. apply not_logged_1. reflexivity.
  - intros id w. unfold Delete. run.
    destruct (Exec db deleteQuery [Int64 id] (pool w)) as [[tag [e|]] p'];
      cbn [fst snd]; run; [discriminate|].
    destruct (RowsAffected tag =? 0); run; [discriminate|].
    intros _. apply not_logged_1. reflexivity.
  - intros limit offset w. unfold List. run.
    destruct (Query db listQuery _ (pool w)) as [[rows [e|]] p'];
      cbn [fst snd]; run; [discriminate|].
    destruct (listLoop_cases (data rows) None (mkWorld p' (brk w)))
      as [[users Hl]|[cause Hl]]; rewrite Hl; cbn [result trace world pool brk app].
    + destruct (pgx.err rows); run; [discriminate|].
      intros _. apply not_logged_1. reflexivity.
    + discriminate.
  - intros w. unfold Count. run.
    destruct (rowScan 0 scanInt64 _) as [count [e|]]; run; [discriminate|].
    destruct (count =? 0); run; [discriminate|].
    intros _. apply not_logged_1. reflexivity.
Qed.

Lemma Is_wrap (p : addr) (msg : string) (cause target : error) :
  Is cause target = true -> Is (wrapError p msg cause) target = true.
Proof.
  intros H. cbn [Is]. rewrite H. apply orb_true_r.
Qed.

(** GetByID, Update, Delete, List and Count keep the failure matchable:
    whatever value the error reported by the pool, the cursor or the scan
    matches under errors.Is, the error the operation returns matches too. *)
Theorem failure_stays_matchable (target : error) :
  (forall id w rows err p' cause,
      Query db getByIDQuery [Int64 id] (pool w) = ((rows, err), p') ->
      Is cause target = true ->
      err = Some cause \/
      (err = None /\ data rows = [] /\ pgx.err rows = Some cause) \/
      (exists raw rest,
          err = None /\ data rows = raw :: rest /\ scanUser raw = None /\
          cause = scanError raw) ->
      exists e, result (GetByID id w) = (None, Some e) /\ Is e target = true) /\
  (forall u w row p' usr cause,
      QueryRow db updateQuery
        [Text (Username u); Text (Email u); Text (PassHash u); Int64 (ID u)]
        (pool w) = (row, p') ->
      rowScan zeroUser scanUser row = (usr, Some cause) ->
      Is cause target = true ->
      exists e, result (Update u w) = (None, Some e) /\ Is e target = true) /\
  (forall id w tag p' cause,
      Exec db deleteQuery [Int64 id] (pool w) = ((tag, Some cause), p') ->
      Is cause target = true ->
      exists e, result (Delete id w) = Some e /\ Is e target = true) /\
  (forall limit offset w rows err p' cause,
      Query db listQuery [Int64 limit; Int64 offset] (pool w) = ((rows, err), p') ->
      Is cause target = true ->
      err = Some cause \/
      (exists users,
          err = None /\ map scanUser (data rows) = map Some users /\
          pgx.err rows = Some cause) \/
      (exists pre upre raw post,
          err = None /\ data rows = (pre ++ raw :: post)%list /\
          map scanUser pre = map Some upre /\ scanUser raw = None /\
          cause = scanError raw) ->
      exists e, result (List limit offset w) = (None, Some e) /\ Is e target = true) /\
  (forall w row p' count cause,
      QueryRow db countQuery [] (pool w) = (row, p') ->
      rowScan 0 scanInt64 row = (count, Some cause) ->
      Is cause target = true ->
      exists e, result (Count w) = (0, Some e) /\ Is e target = true).
Proof.
  repeat apply conj.
  - intros id w rows err p' cause Hq Hm Hc.
    unfold GetByID. run. rewrite Hq. cbn [fst snd].
    destruct Hc as [He|[(He & Hd & Hr)|(raw & rest & He & Hd & Hs & ->)]]; subst err.
    + run. eexists. split; [reflexivity|apply Is_wrap, Hm].
    + rewrite Hd, Hr. run. eexists. split; [reflexivity|apply Is_wrap, Hm].
    + rewrite Hd. unfold rowsScan. rewrite Hs. run.
      eexists. split; [reflexivity|apply Is_wrap, Hm].
  - intros u w row p' usr cause Hq Hs Hm. unfold Update. run.
    rewrite Hq. cbn [fst snd]. rewrite Hs.
    destruct (Is cause ErrNoRows); run; eexists; (split; [reflexivity|apply Is_wrap, Hm]).
  - intros id w tag p' cause Hq Hm.
    destruct (Delete_run id w tag (Some cause) p' Hq) as [Hr _]. rewrite Hr.
    eexists. split; [reflexivity|apply Is_wrap, Hm].
  - intros limit offset w rows err p' cause Hq Hm Hc.
    destruct Hc as [He|[(users & He & Hall & Hr)|(pre & upre & raw & post & He & Hd & Hp & Hs & ->)]];
      subst err; unfold List; run; rewrite Hq; cbn [fst snd].
    + run. eexists. split; [reflexivity|apply Is_wrap, Hm].
    + rewrite (listLoop_all _ users _ _ Hall). cbn [result world]. rewrite Hr. run.
      eexists. split; [reflexivity|apply Is_wrap, Hm].
    + rewrite Hd, (listLoop_scan_fails pre upre raw post _ _ Hp Hs).
      eexists. split; [reflexivity|apply Is_wrap, Hm].
  - intros w row p' count cause Hq Hs Hm. unfold Count. run.
    rewrite Hq. cbn [fst snd]. rewrite Hs. run.
    eexists. split; [reflexivity|apply Is_wrap, Hm].
Qed.

Lemma listLoop_completes (rest : list RawRow) :
  forall (acc users : slice User) (tr : list Action) (w w' : World),
    listLoop rest acc w = mkOutcome (inr users) tr w' ->
    exists scanned,
      map scanUser rest = map Some scanned /\ users = fold_left append scanned acc.
Proof.
  induction rest as [|raw rest IH]; intros acc users tr w w' Hl; cbn [listLoop] in Hl.
  - exists []. injection Hl as <- _ _. split; reflexivity.
  - unfold rowsScan in Hl. destruct (scanUser raw) as [u|] eqn:Hs.
    + destruct (IH _ _ _ _ _ Hl) as (scanned & Hm & Hu).
      exists (u :: scanned). split; [simpl; rewrite Hs, Hm; reflexivity|exact Hu].
    + revert Hl. run. discriminate.
Qed.

(** List returns no error only when the query succeeded, every row of the
    cursor scanned and the cursor ended without an iteration error; the
    slice then holds exactly the scanned rows, and it is nil rather than
    empty when there are none. *)
Theorem List_success_only_if (limit offset : Z) (w : World) :
  snd (result (List limit offset w)) = None ->
  exists rows p' users,
    Query db listQuery [Int64 limit; Int64 offset] (pool w) = ((rows, None), p') /\
    map scanUser (data rows) = map Some users /\
    pgx.err rows = None /\
    fst (result (List limit offset w)) = sliceOf users /\
    fst (result (List limit offset w)) <> Some [].
Proof.
  unfold List. run.
  destruct (Query db listQuery _ (pool w)) as [[rows [e|]] p'] eqn:Hq;
    cbn [fst snd]; run; [discriminate|].
  destruct (listLoop (data rows) None (mkWorld p' (brk w))) as [r tr w'] eqn:Hl.
  destruct (listLoop_cases (data rows) None (mkWorld p' (brk w)))
    as [[users Hc]|[cause Hc]]; rewrite Hl in Hc; injection Hc as -> -> ->;
    cbn [result trace world]; [|discriminate].
  destruct (pgx.err rows) as [e|] eqn:He; run; [discriminate|]. intros _.
  destruct (listLoop_completes _ _ _ _ _ _ Hl) as (scanned & Hm & ->).
  rewrite fold_append_nil.
  exists rows, p', scanned. repeat split; try assumption.
  destruct scanned; discriminate.
Qed.

(** Count never returns a zero count with a nil error: a nil error means a
    count other than zero, the one the row carried. *)
Theorem Count_success_is_nonzero (w : World) :
  snd (result (Count w)) = None ->
  fst (result (Count w)) <> 0 /\
  exists raw p',
    QueryRow db countQuery [] (pool w) = (RowData raw, p') /\
    scanInt64 raw = Some (fst (result (Count w))).
Proof.
  unfold Count. run.
  destruct (QueryRow db countQuery [] (pool w)) as [row p'] eqn:Hq. cbn [fst snd].
  destruct row as [e| |raw]; cbn [rowScan]; run; try discriminate.
  unfold rowsScan. destruct (scanInt64 raw) as [count|] eqn:Hs; run; [|discriminate].
  destruct (count =? 0) eqn:Hz; run; [discriminate|]. intros _.
  apply Z.eqb_neq in Hz. split; [exact Hz|].
  exists raw, p'. split; [reflexivity|exact Hs].
Qed.

Lemma fresh_leaf_matches_nothing (top : N) (msg : string) (target : error) :
  below top target = true -> Is (errorString (Heap top) msg) target = false.
Proof.
  destruct target as [[name|n] s|p m c]; simpl; intros H; try reflexivity.
  apply N.ltb_lt in H. rewrite orb_false_r. apply N.eqb_neq. lia.
Qed.

(** The not-found errors of GetByID and Delete match no error value that
    existed before the call, [pgx.ErrNoRows] included: they can be told
    apart by their text only. *)
Theorem not_found_matches_nothing (id : Z) (w : World) (target : error) :
  below (brk w) target = true ->
  (forall rows p',
      Query db getByIDQuery [Int64 id] (pool w) = ((rows, None), p') ->
      data rows = [] -> pgx.err rows = None ->
      exists e,
        result (GetByID id w) = (None, Some e) /\
        Is e target = false /\ Is e ErrNoRows = false) /\
  (forall tag p',
      Exec db deleteQuery [Int64 id] (pool w) = ((tag, None), p') ->
      RowsAffected tag = 0 ->
      exists e,
        result (Delete id w) = Some e /\
        Is e target = false /\ Is e ErrNoRows = false).
Proof.
  intros Hb. split.
  - intros rows p' Hq Hd He. unfold GetByID. run. rewrite Hq. cbn [fst snd].
    rewrite Hd, He. run. eexists. split; [reflexivity|].
    split; [apply fresh_leaf_matches_nothing, Hb|reflexivity].
  - intros tag p' Hq Hz.
    destruct (Delete_run id w tag None p' Hq) as [Hr _]. rewrite Hr, Hz.
    eexists. split; [reflexivity|].
    split; [apply fresh_leaf_matches_nothing, Hb|reflexivity].
Qed.

Lemma d_inj (a b : Z) : fmt.d a = fmt.d b -> a = b.
Proof.
  unfold fmt.d. intros H. apply DecimalZ.to_int_inj.
  assert (Hn : forall z, Z.to_int z <> Decimal.Pos Decimal.Nil /\
                         Z.to_int z <> Decimal.Neg Decimal.Nil).
  { intros [|p|p]; split; simpl; try discriminate; intros E; injection E;
      apply DecimalPos.Unsigned.to_uint_nonnil. }
  assert (E : Some (Z.to_int a) = Some (Z.to_int b)).
  { rewrite <- (NilZero.isi (Z.to_int a)), <- (NilZero.isi (Z.to_int b));
      try apply Hn. rewrite H. reflexivity. }
  injection E. auto.
Qed.

Lemma length_append (a b : string) :
  String.length (a ++ b) = (String.length a + String.length b)%nat.
Proof.
  induction a as [|c a IH]; simpl; [reflexivity|]. rewrite IH. reflexivity.
Qed.

Lemma append_inv_tail (a b s : string) : a ++ s = b ++ s -> a = b.
Proof.
  revert b. induction a as [|c a IH]; intros [|c' b] H; simpl in H.
  - reflexivity.
  - apply (f_equal String.length) in H. simpl in H. rewrite length_append in H. lia.
  - apply (f_equal String.length) in H. simpl in H. rewrite length_append in H. lia.
  - injection H as -> H. rewrite (IH b H). reflexivity.
Qed.

Lemma not_found_text_inj (id1 id2 : Z) :
  "user with id " ++ fmt.d id1 ++ " not found" =
  "user with id " ++ fmt.d id2 ++ " not found" ->
  id1 = id2.
Proof.
  intros H. cbn [String.append] in H.
  repeat (injection H as H). apply append_inv_tail in H. apply d_inj, H.
Qed.

(** The text of a not-found error names its id: when GetByID or Delete
    return errors that wrap nothing and have the same text, they were called
    with the same id. *)
Theorem not_found_text_names_id (id1 id2 : Z) (w1 w2 : World) (e1 e2 : error) :
  result (Delete id1 w1) = Some e1 \/ snd (result (GetByID id1 w1)) = Some e1 ->
  result (Delete id2 w2) = Some e2 \/ snd (result (GetByID id2 w2)) = Some e2 ->
  Unwrap e1 = None ->
  Unwrap e2 = None ->
  Error e1 = Error e2 ->
  id1 = id2.
Proof.
  assert (Hleaf : forall id w e,
             result (Delete id w) = Some e \/ snd (result (GetByID id w)) = Some e ->
             Unwrap e = None ->
             Error e = "user with id " ++ fmt.d id ++ " not found").
  { intros id w e [H|H] Hu.
    - destruct (Delete_cases id w) as [(cause & Hr & _)|[[Hr _]|Hr]];
        rewrite Hr in H; [| |discriminate]; injection H as <-;
        [discriminate|reflexivity].
    - destruct (GetByID_cases id w) as [(msg & lmsg & cause & Hr & _)|[[Hr _]|(u & Hr)]];
        rewrite Hr in H; cbn [snd] in H; [| |discriminate]; injection H as <-;
        [discriminate|reflexivity]. }
  intros H1 H2 Hu1 Hu2 Heq.
  rewrite (Hleaf _ _ _ H1 Hu1), (Hleaf _ _ _ H2 Hu2) in Heq.
  apply not_found_text_inj, Heq.
Qed.

(** Create, GetByID and Update return no error only when the store sent a
    row that decodes, and what they return is what that row holds: the
    scanned id for Create, the scanned user for GetByID (the first row of
    the cursor) and for Update (the returned row, not the argument). *)
Theorem success_returns_the_row :
  (forall u w,
      snd (result (Create u w)) = None ->
      exists raw p',
        QueryRow db createQuery [Text (Username u); Text (Email u); Text (PassHash u)]
          (pool w) = (RowData raw, p') /\
        scanInt64 raw = Some (fst (result (Create u w)))) /\
  (forall id w,
      snd (result (GetByID id w)) = None ->
      exists raw rest final p',
        Query db getByIDQuery [Int64 id] (pool w) = ((mkRows (raw :: rest) final, None), p') /\
        scanUser raw = fst (result (GetByID id w))) /\
  (forall u w,
      snd (result (Update u w)) = None ->
      exists raw p',
        QueryRow db updateQuery
          [Text (Username u); Text (Email u); Text (PassHash u); Int64 (ID u)]
          (pool w) = (RowData raw, p') /\
        scanUser raw = fst (result (Update u w))).
Proof.
  repeat apply conj.
  - intros u w. unfold Create. run.
    destruct (QueryRow db createQuery _ (pool w)) as [row p'] eqn:Hq. cbn [fst snd].
    destruct row as [e| |raw]; cbn [rowScan IsNilable].
    + destruct (Is e ErrNoRows); run; discriminate.
    + destruct (Is ErrNoRows ErrNoRows); run; discriminate.
    + unfold rowsScan. destruct (scanInt64 raw) as [id|] eqn:Hs; cbn [IsNilable].
      * run. intros _. exists raw, p'. split; [reflexivity|assumption].
      * destruct (Is (scanError raw) ErrNoRows); run; discriminate.
  - intros id w. unfold GetByID. run.
    destruct (Query db getByIDQuery [Int64 id] (pool w)) as [[[rws final] [e|]] p'] eqn:Hq;
      cbn [fst snd data pgx.err]; run; [discriminate|].
    destruct rws as [|raw rest].
    + destruct final; run; discriminate.
    + unfold rowsScan. destruct (scanUser raw) as [usr|] eqn:Hs; run; [|discriminate].
      intros _. exists raw, rest, final, p'. split; [reflexivity|assumption].
  - intros u w. unfold Update. run.
    destruct (QueryRow db updateQuery _ (pool w)) as [row p'] eqn:Hq. cbn [fst snd].
    destruct row as [e| |raw]; cbn [rowScan].
    + destruct (Is e ErrNoRows); run; discriminate.
    + destruct (Is ErrNoRows ErrNoRows); run; discriminate.
    + unfold rowsScan. destruct (scanUser raw) as [usr|] eqn:Hs.
      * run. intros _. exists raw, p'. split; [reflexivity|assumption].
      * destruct (Is (scanError raw) ErrNoRows); run; discriminate.
Qed.
End Repository.

Arguments mkWorld {P} _ _.
Arguments mkOutcome {P A} _ _ _.
Arguments result {P A} _.
Arguments trace {P A} _.
Arguments world {P A} _.

(** ** The in-memory table obeys the store assumptions *)

Lemma filter_filter {A : Type} (f : A -> bool) (l : list A) :
  filter f (filter f l) = filter f l.
Proof.
  induction l as [|x l IH]; simpl; [reflexivity|].
  destruct (f x) eqn:E; simpl; [rewrite E, IH|]; auto.
Qed.

Lemma memstore_CountsRows : CountsRows memstore.
Proof.
  intros sql args t. cbn [Exec memstore]. unfold memstoreExec.
  destruct (String.eqb sql deleteQuery); [|simpl; lia].
  destruct args as [|[id| | |] [|]]; simpl; try lia.
  pose proof (filter_length_le (fun u => negb (ID u =? id)) t). lia.
Qed.

Lemma memstore_DeleteRemoves : DeleteRemoves memstore.
Proof.
  intros id t tag t1 H. cbn [Exec memstore] in *. unfold memstoreExec in *.
  change (String.eqb deleteQuery deleteQuery) with true in *. cbv iota beta zeta in *.
  injection H as _ Ht. subst t1.
  do 2 eexists. split; [reflexivity|].
  cbn [RowsAffected]. rewrite filter_filter. lia.
Qed.

(** ** The theorems at concrete inputs *)

Lemma Create_conflict_witness :
  result (Create scripted scanFails dima (mkWorld (onQueryRow RowNone) 2)) =
    (0, Some ErrUserAlreadyExists).
Proof.
  apply (Create_conflict scripted scanFails dima (mkWorld (onQueryRow RowNone) 2)
           RowNone (onQueryRow RowNone) 0 (Some ErrNoRows));
    reflexivity.
Defined.

Lemma Create_db_error_witness :
  let e := wrapError (Heap 2) "database error: connection lost" ErrDB in
  result (Create scripted scanFails dima (mkWorld (onQueryRow (RowError errConnLost)) 2)) =
    (0, Some e) /\
  Is e ErrDB = true /\
  Unwrap e = Some ErrDB /\
  Is e errConnLost = same ErrDB errConnLost.
Proof.
  exact (Create_db_error scripted scanFails dima
           (mkWorld (onQueryRow (RowError errConnLost)) 2)
           (RowError errConnLost) (onQueryRow (RowError errConnLost)) errConnLost
           eq_refl eq_refl eq_refl eq_refl).
Defined.

(** C2 fails: with a lost connection, the error Create returns matches
    [ErrDB] and does not match the connection error. *)
Lemma Create_db_error_hides_cause :
  ~ Create_wraps_root_cause scripted scanFails dima
      (mkWorld (onQueryRow (RowError errConnLost)) 2).
Proof.
  intros H.
  destruct (H (RowError errConnLost) (onQueryRow (RowError errConnLost)) errConnLost
              eq_refl eq_refl eq_refl) as (e & Hr & _ & Hc).
  vm_compute in Hr. injection Hr as <-. vm_compute in Hc. discriminate Hc.
Qed.

Lemma Update_failure_witness :
  let e := wrapError (Heap 2) "user with id 42 not found: no rows in result set" ErrNoRows in
  result (Update scripted scanFails dima (mkWorld (onQueryRow RowNone) 2)) =
    (None, Some e) /\
  Is e ErrNoRows = true.
Proof.
  exact (proj1 (proj1 (Update_failure scripted scanFails dima
                         (mkWorld (onQueryRow RowNone) 2))
                  RowNone (onQueryRow RowNone) zeroUser ErrNoRows eq_refl eq_refl)
           eq_refl).
Defined.

Lemma Update_scan_failure_is_generic_witness :
  let w := mkWorld badRowScript 2 in
  let w2 := mkWorld (onQueryRow (RowError errBadScan)) 2 in
  result (Update scripted scanFails dima w) =
    (None, Some (wrapError (Heap 2) "failed query Update: cannot scan into dest" errBadScan)) /\
  result (Update scripted scanFails dima w) = result (Update scripted scanFails dima w2) /\
  result (GetByID scripted scanFails 42 w) =
    (None, Some (wrapError (Heap 2) "scan GetByID row: cannot scan into dest" errBadScan)).
Proof.
  intros w w2.
  destruct (Update_scan_failure_is_generic scripted scanFails dima w w2 badRow
              badRowScript (onQueryRow (RowError errBadScan))
              eq_refl eq_refl eq_refl eq_refl eq_refl) as (H1 & H2 & H3).
  split; [exact H1|split; [exact H2|]].
  exact (H3 42 [] None badRowScript eq_refl).
Defined.

(** C1 fails: when the cursor ends on an iteration error, GetByID fails
    with an error that is none of the three. *)
Lemma GetByID_fourth_outcome :
  ~ GetByID_exactly_three scripted scanFails 7
      (mkWorld (onQuery (mkRows [] (Some errConnLost), None)) 2).
Proof.
  intros H.
  destruct (H (wrapError (Heap 2) "rows integration GetByID: connection lost" errConnLost)
              eq_refl) as [(c & Hc)|[Hc|(c & Hc)]].
  - simpl in Hc. discriminate Hc.
  - discriminate Hc.
  - simpl in Hc. discriminate Hc.
Qed.

Lemma GetByID_outcomes_witness :
  result (GetByID scripted scanFails 42 (mkWorld (onQuery (mkRows [dimaRow] None, None)) 2)) =
    (Some dima, None) /\
  result (GetByID scripted scanFails 7
            (mkWorld (onQuery (mkRows [] (Some errConnLost), None)) 2)) =
    (None,
     Some (wrapError (Heap 2) "rows integration GetByID: connection lost" errConnLost)).
Proof.
  split.
  - exact (proj2 (proj2 (proj2 (proj2
             (GetByID_outcomes scripted scanFails 42
                (mkWorld (onQuery (mkRows [dimaRow] None, None)) 2)
                (mkRows [dimaRow] None) None (onQuery (mkRows [dimaRow] None, None))
                eq_refl))))
             dimaRow [] dima eq_refl eq_refl eq_refl).
  - exact (proj1 (proj2 (proj2
             (GetByID_outcomes scripted scanFails 7
                (mkWorld (onQuery (mkRows [] (Some errConnLost), None)) 2)
                (mkRows [] (Some errConnLost)) None
                (onQuery (mkRows [] (Some errConnLost), None)) eq_refl)))
             errConnLost eq_refl eq_refl eq_refl).
Defined.

Lemma Delete_on_memstore :
  let w := mkWorld [dima] 0 in
  result (Delete memstore 42 w) = None /\
  result (Delete memstore 42 (world (Delete memstore 42 w))) =
    Some (errorString (Heap 0) "user with id 42 not found").
Proof.
  intros w.
  destruct (Delete_on_counting_store memstore 42 w memstore_CountsRows
              memstore_DeleteRemoves)
    as (Hiff & _ & _ & Htwice).
  assert (Hfirst : result (Delete memstore 42 w) = None).
  { apply Hiff. exists (mkCommandTag 1), []. split; [reflexivity|]. simpl. lia. }
  split; [exact Hfirst|exact (Htwice Hfirst)].
Defined.

Lemma Delete_outcomes_witness :
  let w := mkWorld [dima] 0 in
  let w1 := world (Delete memstore 42 w) in
  result (Delete memstore 42 w) = None /\
  pool w1 = [] /\
  result (Delete memstore 42 w1) =
    Some (errorString (Heap 0) "user with id 42 not found").
Proof.
  intros w w1.
  destruct (Delete_outcomes memstore 42 w) as (Hnil & _ & _ & Hp & _ & _ & Hnf & _).
  split; [|split].
  - apply Hnil. exists (mkCommandTag 1), []. split; [reflexivity|discriminate].
  - exact Hp.
  - apply Hnf. exists (mkCommandTag 0), []. split; reflexivity.
Defined.

(** C5 fails twice.  A command tag whose count is negative makes Delete
    return no error although fewer than one row is reported; and on a pool
    that reports one affected row every time, the Delete that follows a
    successful Delete returns no error too. *)
Lemma Delete_claim_fails :
  ~ Delete_nil_iff_at_least_one scripted 42
      (mkWorld (onExec (mkCommandTag (-1), None)) 2) /\
  ~ Delete_twice_not_found scripted 42
      (mkWorld (onExec (mkCommandTag 1, None)) 2).
Proof.
  split.
  - intros [H _]. destruct (H eq_refl) as (tag & p' & Hq & Hge).
    injection Hq as <- _. simpl in Hge. lia.
  - intros H. specialize (H eq_refl). discriminate H.
Qed.

Lemma Count_spec_witness :
  result (Count scripted scanFails (mkWorld (onQueryRow (RowData [Int64 5])) 2)) = (5, None) /\
  result (Count scripted scanFails (mkWorld (onQueryRow (RowData [Int64 0])) 2)) =
    (0, Some ErrNoUsers).
Proof.
  split.
  - apply (proj1 (proj2 (Count_spec scripted scanFails
                           (mkWorld (onQueryRow (RowData [Int64 5])) 2)
                           (RowData [Int64 5]) (onQueryRow (RowData [Int64 5])) 5 None
                           eq_refl eq_refl))); [reflexivity|lia].
  - apply (proj1 (Count_spec scripted scanFails
                    (mkWorld (onQueryRow (RowData [Int64 0])) 2)
                    (RowData [Int64 0]) (onQueryRow (RowData [Int64 0])) 0 None
                    eq_refl eq_refl)); reflexivity.
Defined.

Lemma List_spec_witness :
  result (List scripted scanFails 2 0
            (mkWorld (onQuery (mkRows [dimaRow; dimaRow] None, None)) 2)) =
    (Some [dima; dima], None) /\
  result (List scripted scanFails 2 0
            (mkWorld (onQuery (mkRows [dimaRow; badRow] None, None)) 2)) =
    (None, Some (wrapError (Heap 2) "failed scan user List: cannot scan into dest" errBadScan)).
Proof.
  split.
  - exact (proj1 (List_spec scripted scanFails 2 0
                    (mkWorld (onQuery (mkRows [dimaRow; dimaRow] None, None)) 2)
                    (mkRows [dimaRow; dimaRow] None)
                    (onQuery (mkRows [dimaRow; dimaRow] None, None)) eq_refl)
             [dima; dima] eq_refl eq_refl).
  - exact (proj1 (proj2 (List_spec scripted scanFails 2 0
                    (mkWorld (onQuery (mkRows [dimaRow; badRow] None, None)) 2)
                    (mkRows [dimaRow; badRow] None)
                    (onQuery (mkRows [dimaRow; badRow] None, None)) eq_refl))
             [dimaRow] [dima] badRow [] eq_refl eq_refl eq_refl).
Defined.

(** C8 fails: Create returns [ErrUserAlreadyExists] without a single call
    on the logger. *)
Lemma Create_conflict_not_logged :
  ~ Create_failure_logged scripted scanFails dima (mkWorld (onQueryRow RowNone) 2).
Proof.
  intros H. destruct H as (msg & fields & HIn); [discriminate|].
  destruct HIn as [HIn|[]]. discriminate HIn.
Qed.

(** GetByID returns its not-found error after a call at info severity only. *)
Lemma GetByID_not_found_logged_at_info :
  ~ GetByID_failure_logged scripted scanFails 7
      (mkWorld (onQuery (mkRows [] None, None)) 2).
Proof.
  intros H. destruct H as (msg & fields & HIn); [discriminate|].
  destruct HIn as [HIn|[HIn|[]]]; discriminate HIn.
Qed.

Lemma failures_logged_witness :
  trace (Create scripted scanFails dima (mkWorld (onQueryRow (RowError errConnLost)) 2)) =
    [PoolQueryRow createQuery [Text "dima"; Text "dima@example.com"; Text "hash"];
     Log ErrorLevel "failed to create user" [mkField "error" (AnyError errConnLost)]] /\
  trace (Create scripted scanFails dima (mkWorld (onQueryRow RowNone) 2)) =
    [PoolQueryRow createQuery [Text "dima"; Text "dima@example.com"; Text "hash"]].
Proof.
  split.
  - destruct (proj1 (failures_logged scripted scanFails) dima
                (mkWorld (onQueryRow (RowError errConnLost)) 2) _ eq_refl)
      as (cause & Hc & [(Hno & _)|(_ & _ & Ht)]);
      cbn in Hc; injection Hc as <-; [discriminate Hno|exact Ht].
  - destruct (proj1 (failures_logged scripted scanFails) dima
                (mkWorld (onQueryRow RowNone) 2) _ eq_refl)
      as (cause & Hc & [(_ & _ & Ht)|(Hno & _)]);
      cbn in Hc; injection Hc as <-; [exact Ht|discriminate Hno].
Defined.

Lemma result_or_error_witness :
  fst (result (Create scripted scanFails dima
                 (mkWorld (onQueryRow (RowError errConnLost)) 2))) = 0.
Proof.
  apply (proj1 (result_or_error scripted scanFails) dima
           (mkWorld (onQueryRow (RowError errConnLost)) 2)).
  discriminate.
Defined.

(** ** The zap adapter *)

Lemma toZapFields_from (fields : list Field) :
  forall args : list boxed,
    fold_left (fun args f => (args ++ [BoxString (Key f); BoxAny (Value f)])%list)
      fields args =
    (args ++ flat_map (fun f => [BoxString (Key f); BoxAny (Value f)]) fields)%list.
Proof.
  induction fields as [|f fields IH]; intros args; simpl.
  - rewrite app_nil_r. reflexivity.
  - rewrite IH, <- app_assoc. reflexivity.
Qed.

Lemma toZapFields_flat (fields : list Field) :
  toZapFields fields =
    flat_map (fun f => [BoxString (Key f); BoxAny (Value f)]) fields.
Proof.
  unfold toZapFields. rewrite toZapFields_from. reflexivity.
Qed.

(** toZapFields returns twice as many elements as there are fields, the key
    of the field at index i at index 2i and its value at index 2i+1. *)
Theorem toZapFields_layout (fields : list Field) :
  List.length (toZapFields fields) = (2 * List.length fields)%nat /\
  forall (i : nat) (f : Field),
    nth_error fields i = Some f ->
    nth_error (toZapFields fields) (2 * i) = Some (BoxString (Key f)) /\
    nth_error (toZapFields fields) (2 * i + 1) = Some (BoxAny (Value f)).
Proof.
  rewrite toZapFields_flat. split.
  - induction fields as [|f fields IH]; simpl; [reflexivity|]. rewrite IH. lia.
  - induction fields as [|g fields IH]; intros i f Hi.
    + destruct i; discriminate.
    + destruct i as [|i].
      * injection Hi as ->. split; reflexivity.
      * destruct (IH i f Hi) as [Hk Hv].
        replace (2 * S i)%nat with (S (S (2 * i))) by lia.
        replace (S (S (2 * i)) + 1)%nat with (S (S (2 * i + 1))) by lia.
        split; [exact Hk|exact Hv].
Qed.

(** toZapFields of two field lists put end to end is the two results put
    end to end, so fields bound with With and fields of a call keep their
    order. *)
Theorem toZapFields_app (a b : list Field) :
  toZapFields (a ++ b)%list = (toZapFields a ++ toZapFields b)%list.
Proof.
  rewrite !toZapFields_flat. apply flat_map_app.
Qed.

(** newZapLogger fails only when an output path is set and zap.Open fails
    on it: it then returns the error of zap.Open as it is.  With no output
    path it writes to stdout and what zap.Open would do does not matter;
    with an output path that opens, the sink zap.Open returned is the only
    output, in place of the default stdout sink. *)
Theorem newZapLogger_output (zapOpen : string -> zapcore.WriteSyncer * option error)
  (cfg : config.LoggerConfig) :
  (config.OutputPath cfg = "" ->
   (exists zl, newZapLogger zapOpen cfg = (Some zl, None) /\ out zl = [zapcore.Stdout]) /\
   forall zapOpen', newZapLogger zapOpen' cfg = newZapLogger zapOpen cfg) /\
  (forall ws e,
      config.OutputPath cfg <> "" ->
      zapOpen (config.OutputPath cfg) = (ws, Some e) ->
      newZapLogger zapOpen cfg = (None, Some e)) /\
  (forall ws,
      config.OutputPath cfg <> "" ->
      zapOpen (config.OutputPath cfg) = (ws, None) ->
      exists zl, newZapLogger zapOpen cfg = (Some zl, None) /\ out zl = [ws]) /\
  (forall e,
      newZapLogger zapOpen cfg = (None, Some e) ->
      config.OutputPath cfg <> "" /\ snd (zapOpen (config.OutputPath cfg)) = Some e).
Proof.
  unfold newZapLogger. split; [|split; [|split]].
  - intros ->. cbn. split; [eexists; split; reflexivity|reflexivity].
  - intros ws e Hp Ho. apply String.eqb_neq in Hp. rewrite Hp, Ho. reflexivity.
  - intros ws Hp Ho. apply String.eqb_neq in Hp. rewrite Hp, Ho. cbn.
    eexists. split; reflexivity.
  - intros e. destruct (String.eqb (config.OutputPath cfg) "") eqn:Hp; cbn [negb].
    + discriminate.
    + apply String.eqb_neq in Hp.
      destruct (zapOpen (config.OutputPath cfg)) as [ws [e'|]]; [|discriminate].
      intros H. injection H as <-. split; [exact Hp|reflexivity].
Qed.

(** Whatever the configured level, the logger newZapLogger returns lets
    error events through; it lets debug events through only for the level
    "debug", and info events through unless the level is "warn" or "error";
    any other level string behaves as "info".  The encoder is the console
    one only for the encoding "console". *)
Theorem newZapLogger_levels (zapOpen : string -> zapcore.WriteSyncer * option error)
  (cfg : config.LoggerConfig) (zl : zapLogger) :
  newZapLogger zapOpen cfg = (Some zl, None) ->
  zapcore.Enabled (level zl) zapcore.ErrorLevel = true /\
  (zapcore.Enabled (level zl) zapcore.DebugLevel = true <-> config.Level cfg = "debug") /\
  (zapcore.Enabled (level zl) zapcore.InfoLevel = true <->
     config.Level cfg <> "warn" /\ config.Level cfg <> "error") /\
  (encoder zl = zapcore.ConsoleEncoder <-> config.Encoding cfg = "console").
Proof.
  unfold newZapLogger. intros H.
  assert (Hl : level zl =
    (if String.eqb (config.Level cfg) "debug" then zapcore.DebugLevel
     else if String.eqb (config.Level cfg) "info" then zapcore.InfoLevel
     else if String.eqb (config.Level cfg) "warn" then zapcore.WarnLevel
     else if String.eqb (config.Level cfg) "error" then zapcore.ErrorLevel
     else zapcore.InfoLevel) /\
    encoder zl =
      (if String.eqb (config.Encoding cfg) "console" then zapcore.ConsoleEncoder
       else zapcore.JSONEncoder)).
  { destruct (negb (String.eqb (config.OutputPath cfg) "")).
    - destruct (zapOpen (config.OutputPath cfg)) as [ws [e|]]; [discriminate|].
      injection H as <-. split; reflexivity.
    - injection H as <-. split; reflexivity. }
  destruct Hl as [Hl He]. rewrite Hl, He. clear H Hl He.
  destruct (String.eqb (config.Encoding cfg) "console") eqn:Ee;
    [apply String.eqb_eq in Ee|apply String.eqb_neq in Ee];
  (destruct (String.eqb (config.Level cfg) "debug") eqn:E1;
    [apply String.eqb_eq in E1; rewrite E1
    |apply String.eqb_neq in E1;
     destruct (String.eqb (config.Level cfg) "info") eqn:E2;
     [apply String.eqb_eq in E2; rewrite E2
     |apply String.eqb_neq in E2;
      destruct (String.eqb (config.Level cfg) "warn") eqn:E3;
      [apply String.eqb_eq in E3; rewrite E3
      |apply String.eqb_neq in E3;
       destruct (String.eqb (config.Level cfg) "error") eqn:E4;
       [apply String.eqb_eq in E4; rewrite E4|apply String.eqb_neq in E4]]]]);
  cbn; repeat split; intros; try congruence; try discriminate;
  try (match goal with H : _ /\ _ |- _ => destruct H end; congruence).
Qed.

(** ** Loading the configuration *)

(** MustLoadConfig returns a configuration exactly when the path is not
    empty and the reader reports no error; it is then what the reader made
    of the zero configuration, and no heap cell is used.  The configuration
    is nil exactly when the error is not. *)
Theorem MustLoadConfig_success_iff
  (ReadConfig : string -> config.Config -> config.Config * option error)
  (path : string) (brk : N) :
  (forall cfg,
      fst (config.MustLoadConfig ReadConfig path brk) = (Some cfg, None) <->
      path <> "" /\ ReadConfig path config.zero = (cfg, None)) /\
  (fst (fst (config.MustLoadConfig ReadConfig path brk)) = None <->
   snd (fst (config.MustLoadConfig ReadConfig path brk)) <> None) /\
  (snd (fst (config.MustLoadConfig ReadConfig path brk)) = None ->
   snd (config.MustLoadConfig ReadConfig path brk) = brk).
Proof.
  unfold config.MustLoadConfig.
  destruct (String.eqb path "") eqn:Ep;
    [apply String.eqb_eq in Ep|apply String.eqb_neq in Ep].
  - cbn. repeat split; try discriminate; try congruence.
    intros [Hp _]. congruence.
  - destruct (ReadConfig path config.zero) as [c [e|]]; cbn; repeat split;
      try discriminate; try congruence.
    + intros [_ H]. discriminate.
    + intros [_ H]. congruence.
Qed.

(** An empty path gives the error "config path is empty" without the
    reader being consulted; a reader failure gives an error that names the
    path, wraps the failure and matches whatever the failure matches, and
    what the reader had filled in is dropped. *)
Theorem MustLoadConfig_failure
  (ReadConfig : string -> config.Config -> config.Config * option error)
  (path : string) (brk : N) :
  (path = "" ->
   forall ReadConfig',
     config.MustLoadConfig ReadConfig' path brk =
       ((None, Some (errorString (Heap brk) "config path is empty")), N.succ brk)) /\
  (forall partial cause,
      path <> "" ->
      ReadConfig path config.zero = (partial, Some cause) ->
      exists e,
        fst (config.MustLoadConfig ReadConfig path brk) = (None, Some e) /\
        Error e = "cannot read config from " ++ path ++ ": " ++ Error cause /\
        Unwrap e = Some cause /\
        forall target, Is cause target = true -> Is e target = true).
Proof.
  unfold config.MustLoadConfig. split.
  - intros -> ReadConfig'. reflexivity.
  - intros partial cause Hp Hr. apply String.eqb_neq in Hp. rewrite Hp, Hr.
    eexists. repeat split. intros target Ht. cbn [Is]. rewrite Ht. apply orb_true_r.
Qed.

(** ** The further theorems at concrete inputs *)

Lemma toZapFields_layout_witness :
  nth_error
    (toZapFields [mkField "error" (AnyError errConnLost); mkField "user_id" (AnyInt64 42)])
    2 = Some (BoxString "user_id") /\
  nth_error
    (toZapFields [mkField "error" (AnyError errConnLost); mkField "user_id" (AnyInt64 42)])
    3 = Some (BoxAny (AnyInt64 42)).
Proof.
  exact (proj2 (toZapFields_layout
                  [mkField "error" (AnyError errConnLost); mkField "user_id" (AnyInt64 42)])
           1%nat (mkField "user_id" (AnyInt64 42)) eq_refl).
Defined.

Lemma newZapLogger_output_witness :
  newZapLogger (fun _ => (zapcore.Stdout, Some errConnLost))
    (config.mkLoggerConfig "debug" "console" "/var/log/mm.log") =
    (None, Some errConnLost) /\
  exists zl,
    newZapLogger (fun _ => (zapcore.Stderr, None))
      (config.mkLoggerConfig "debug" "console" "stderr") = (Some zl, None) /\
    out zl = [zapcore.Stderr].
Proof.
  split.
  - apply (proj1 (proj2 (newZapLogger_output (fun _ => (zapcore.Stdout, Some errConnLost))
                           (config.mkLoggerConfig "debug" "console" "/var/log/mm.log")))
             zapcore.Stdout errConnLost); [discriminate|reflexivity].
  - apply (proj1 (proj2 (proj2 (newZapLogger_output (fun _ => (zapcore.Stderr, None))
                                  (config.mkLoggerConfig "debug" "console" "stderr"))))
             zapcore.Stderr); [discriminate|reflexivity].
Defined.

Lemma newZapLogger_levels_witness :
  zapcore.Enabled zapcore.InfoLevel zapcore.ErrorLevel = true /\
  (zapcore.Enabled zapcore.InfoLevel zapcore.DebugLevel = true <-> "DEBUG" = "debug") /\
  (zapcore.Enabled zapcore.InfoLevel zapcore.InfoLevel = true <->
     "DEBUG" <> "warn" /\ "DEBUG" <> "error") /\
  (zapcore.JSONEncoder = zapcore.ConsoleEncoder <-> "json" = "console").
Proof.
  exact (newZapLogger_levels (fun _ => (zapcore.Stdout, None))
           (config.mkLoggerConfig "DEBUG" "json" "")
           (mkZapLogger zapcore.JSONEncoder "ts" zapcore.ISO8601TimeEncoder
              [zapcore.Stdout] zapcore.InfoLevel true zapcore.ErrorLevel)
           eq_refl).
Defined.

Lemma MustLoadConfig_success_iff_witness :
  fst (config.MustLoadConfig (fun _ cfg => (cfg, None)) "../../config/dev.yaml" 0) =
    (Some config.zero, None).
Proof.
  apply (proj1 (MustLoadConfig_success_iff (fun _ cfg => (cfg, None))
                  "../../config/dev.yaml" 0)).
  split; [discriminate|reflexivity].
Defined.

Lemma MustLoadConfig_failure_witness :
  exists e,
    fst (config.MustLoadConfig (fun _ cfg => (cfg, Some errConnLost)) "dev.yaml" 2) =
      (None, Some e) /\
    Error e = "cannot read config from dev.yaml: connection lost" /\
    Unwrap e = Some errConnLost /\
    forall target, Is errConnLost target = true -> Is e target = true.
Proof.
  apply (proj2 (MustLoadConfig_failure (fun _ cfg => (cfg, Some errConnLost)) "dev.yaml" 2)
           config.zero errConnLost); [discriminate|reflexivity].
Defined.

Lemma success_not_logged_as_error_witness :
  ~ logsAtError
      (trace (Create scripted scanFails dima (mkWorld (onQueryRow (RowData [Int64 42])) 2))).
Proof.
  apply (proj1 (success_not_logged_as_error scripted scanFails) dima
           (mkWorld (onQueryRow (RowData [Int64 42])) 2)).
  reflexivity.
Defined.

Lemma failure_stays_matchable_witness :
  exists e,
    result (Delete scripted 42 (mkWorld (onExec (mkCommandTag 0, Some errConnLost)) 2)) =
      Some e /\
    Is e errConnLost = true.
Proof.
  apply (proj1 (proj2 (proj2 (failure_stays_matchable scripted scanFails errConnLost)))
           42 (mkWorld (onExec (mkCommandTag 0, Some errConnLost)) 2)
           (mkCommandTag 0) (onExec (mkCommandTag 0, Some errConnLost)) errConnLost);
    reflexivity.
Defined.

Lemma List_success_only_if_witness :
  exists rows p' users,
    Query scripted listQuery [Int64 2; Int64 0] (onQuery (mkRows [dimaRow] None, None)) =
      ((rows, None), p') /\
    map scanUser (data rows) = map Some users /\
    pgx.err rows = None /\
    fst (result (List scripted scanFails 2 0
                   (mkWorld (onQuery (mkRows [dimaRow] None, None)) 2))) = sliceOf users /\
    fst (result (List scripted scanFails 2 0
                   (mkWorld (onQuery (mkRows [dimaRow] None, None)) 2))) <> Some [].
Proof.
  apply (List_success_only_if scripted scanFails 2 0
           (mkWorld (onQuery (mkRows [dimaRow] None, None)) 2)).
  reflexivity.
Defined.

Lemma Count_success_is_nonzero_witness :
  fst (result (Count scripted scanFails (mkWorld (onQueryRow (RowData [Int64 5])) 2))) <> 0 /\
  exists raw p',
    QueryRow scripted countQuery [] (onQueryRow (RowData [Int64 5])) = (RowData raw, p') /\
    scanInt64 raw =
      Some (fst (result (Count scripted scanFails
                           (mkWorld (onQueryRow (RowData [Int64 5])) 2)))).
Proof.
  apply (Count_success_is_nonzero scripted scanFails
           (mkWorld (onQueryRow (RowData [Int64 5])) 2)).
  reflexivity.
Defined.

Lemma not_found_matches_nothing_witness :
  exists e,
    result (Delete scripted 42 (mkWorld (onExec (mkCommandTag 0, None)) 2)) = Some e /\
    Is e errConnLost = false /\ Is e ErrNoRows = false.
Proof.
  apply (proj2 (not_found_matches_nothing scripted scanFails 42
                  (mkWorld (onExec (mkCommandTag 0, None)) 2) errConnLost eq_refl)
           (mkCommandTag 0) (onExec (mkCommandTag 0, None)));
    reflexivity.
Defined.

Lemma not_found_text_names_id_witness :
  result (Delete scripted 42 (mkWorld (onExec (mkCommandTag 0, None)) 2)) =
    Some (errorString (Heap 2) "user with id 42 not found") /\
  snd (result (GetByID scripted scanFails 42 (mkWorld (onQuery (mkRows [] None, None)) 7))) =
    Some (errorString (Heap 7) "user with id 42 not found") /\
  42 = 42.
Proof.
  split; [reflexivity|split; [reflexivity|]].
  apply (not_found_text_names_id scripted scanFails 42 42
           (mkWorld (onExec (mkCommandTag 0, None)) 2)
           (mkWorld (onQuery (mkRows [] None, None)) 7)
           (errorString (Heap 2) "user with id 42 not found")
           (errorString (Heap 7) "user with id 42 not found"));
    [left; reflexivity|right; reflexivity|reflexivity|reflexivity|reflexivity].
Defined.

Lemma success_returns_the_row_witness :
  exists raw p',
    QueryRow scripted updateQuery
      [Text "dima"; Text "dima@example.com"; Text "hash"; Int64 42]
      (onQueryRow (RowData dimaRow)) = (RowData raw, p') /\
    scanUser raw =
      fst (result (Update scripted scanFails dima (mkWorld (onQueryRow (RowData dimaRow)) 2))).
Proof.
  apply (proj2 (proj2 (success_returns_the_row scripted scanFails)) dima
           (mkWorld (onQueryRow (RowData dimaRow)) 2)).
  reflexivity.
Defined.
